(** * A shallow embedding of [app.py], the chat assistant

    The program is a Gradio front end over a chat-completion provider.
    Its callbacks are embedded as functions over an explicit [world]
    (what the process has sent, logged and written so far) and an
    [environment] (what the provider, the clock and the file readers
    answer).  The conversation, a Python list that the callbacks mutate
    in place, is passed in and handed back by every callback, also when
    the callback ends with an exception.

    Python [str] is embedded as [string]; [len] is [String.length] and
    the slice [s[:n]] is [slice_to n s]. *)

From Stdlib Require Import String Ascii List Arith ZArith Bool Lia DecimalString.
Import ListNotations.

Local Open Scope string_scope.
Local Open Scope list_scope.

(** String concatenation, as f-strings and [+=] do it. *)
Notation "a ^^ b" := (String.append a b) (at level 60, right associativity).

(** ** Python's string primitives *)

Module PyStr.

(** The newline character of the source's [\n] escapes. *)
Definition nl : string := String (ascii_of_nat 10) EmptyString.

(** [s[:n]] *)
Fixpoint slice_to (n : nat) (s : string) : string :=
  match n, s with
  | S n', String c s' => String c (slice_to n' s')
  | _, _ => EmptyString
  end.

(** [s.endswith(suffix)]: the tail of [s] of the suffix's length is
    compared with the suffix, character by character. *)
Definition endswith (s suffix : string) : bool :=
  (String.length suffix <=? String.length s)%nat &&
  (substring (String.length s - String.length suffix)
             (String.length suffix) s =? suffix)%string.

(** [sep.join(parts)] *)
Fixpoint join (sep : string) (parts : list string) : string :=
  match parts with
  | [] => EmptyString
  | [p] => p
  | p :: rest => p ^^ sep ^^ join sep rest
  end.

(** [str(n)] for a non-negative integer. *)
Definition str_of_nat (n : nat) : string :=
  NilEmpty.string_of_uint (Nat.to_uint n).

(** The decimal digit of [d mod 10]. *)
Definition digit (d : nat) : string :=
  String (ascii_of_nat (48 + d mod 10)) EmptyString.

(** The last [width] decimal digits of [n], zero-padded: what the
    fixed-width [strftime] directives print for a field in range. *)
Fixpoint zero_padded (width n : nat) : string :=
  match width with
  | O => EmptyString
  | S w => zero_padded w (n / 10) ^^ digit n
  end.

(** [d.get(key, default)] on a dict literal, kept as its list of items. *)
Fixpoint dict_get {K V : Type} (eqb : K -> K -> bool)
         (items : list (K * V)) (key : K) (default : V) : V :=
  match items with
  | [] => default
  | (k, v) :: rest => if eqb k key then v else dict_get eqb rest key default
  end.

End PyStr.
Import PyStr.

(** ** Exceptions *)

(** What a Python call does: it returns a value, or raises an
    [Exception] whose [str()] is [e]. *)
Inductive outcome (A : Type) : Type :=
| Returns (a : A)
| Raises (e : string).
Arguments Returns {A} a.
Arguments Raises {A} e.

Definition bind {A B : Type} (c : outcome A) (k : A -> outcome B) : outcome B :=
  match c with
  | Returns a => k a
  | Raises e => Raises e
  end.

Notation "x <- c ;; k" := (bind c (fun x => k))
  (at level 61, c at next level, right associativity).

(** [try: body  except Exception as e: handler(e)] *)
Definition try_except {A : Type} (body : outcome A) (handler : string -> outcome A)
  : outcome A :=
  match body with
  | Returns a => Returns a
  | Raises e => handler e
  end.

(** [xs[0]], which raises [IndexError] on an empty list. *)
Definition index0 {A : Type} (xs : list A) : outcome A :=
  match xs with
  | x :: _ => Returns x
  | [] => Raises "list index out of range"
  end.

(** ** Data *)

(** One entry of the conversation: the tuple [(user, bot)]. *)
Definition turn : Type := string * string.

(** A chat message, the dict [{"role": ..., "content": ...}]. *)
Record chat_message : Type := mkMessage { role : string; content : string }.

(** A [datetime.datetime]; its fields are within their calendar ranges. *)
Record datetime : Type := mkDatetime {
  year : nat; month : nat; day : nat;
  hour : nat; minute : nat; second : nat
}.

(** An uploaded file as Gradio hands it over; only [file.name] is used. *)
Record upload : Type := mkUpload { name : string }.

(** A [pandas.DataFrame] as far as [process_file] looks at it. *)
Record dataframe : Type := mkDataframe {
  df_len : nat;                       (* len(df) *)
  df_columns : list string;           (* df.columns *)
  df_describe : outcome string;       (* df.describe(include='all').to_string() *)
  df_head5 : string                   (* df.head(5).to_string(index=False) *)
}.

(** A [fitz] document: iterating it yields its pages, and
    [page.get_text()] returns the page's text or raises. *)
Definition document : Type := list (outcome string).

(** What the outside answers.  The provider and the clock may answer
    differently each time, so they are indexed by the number of earlier
    requests, respectively earlier readings. *)
Record environment : Type := mkEnvironment {
  (* openai.chat.completions.create: the [message.content] of the choices *)
  completions_create : nat -> list chat_message -> outcome (list string);
  (* datetime.datetime.now() *)
  now : nat -> datetime;
  (* open(path, "r", encoding="utf-8").read() *)
  open_read : string -> outcome string;
  (* pd.read_csv(path) *)
  read_csv : string -> outcome dataframe;
  (* fitz.open(path) *)
  fitz_open : string -> outcome document
}.

(** What the process has done to the outside so far. *)
Record world : Type := mkWorld {
  requests : list (list chat_message);       (* message lists sent to the provider *)
  clock_reads : nat;                    (* calls of datetime.now() *)
  log_file : list string;               (* lines appended to user_queries.log *)
  files_written : list (string * string) (* (filename, body) of each export *)
}.

Definition initial_world : world := mkWorld [] 0 [] [].

(** ** The program *)

Definition OPENAI_MODEL : string := "gpt-3.5-turbo-16k".

(** The cap on extracted text, the literal [3000] of [process_file]. *)
Definition LIMIT : nat := 3000.

Section Program.

Variable env : environment.

(** [datetime.datetime.now()] *)
Definition read_clock (w : world) : datetime * world :=
  (now env (clock_reads w),
   mkWorld (requests w) (S (clock_reads w)) (log_file w) (files_written w)).

(** [strftime('%Y-%m-%d %H:%M:%S')] *)
Definition strftime_log (d : datetime) : string :=
  zero_padded 4 (year d) ^^ "-" ^^ zero_padded 2 (month d) ^^ "-" ^^
  zero_padded 2 (day d) ^^ " " ^^ zero_padded 2 (hour d) ^^ ":" ^^
  zero_padded 2 (minute d) ^^ ":" ^^ zero_padded 2 (second d).

(** [strftime("%H:%M:%S")] *)
Definition strftime_clock (d : datetime) : string :=
  zero_padded 2 (hour d) ^^ ":" ^^ zero_padded 2 (minute d) ^^ ":" ^^
  zero_padded 2 (second d).

(** [strftime("%Y%m%d_%H%M%S")] *)
Definition strftime_file (d : datetime) : string :=
  zero_padded 4 (year d) ^^ zero_padded 2 (month d) ^^ zero_padded 2 (day d) ^^
  "_" ^^ zero_padded 2 (hour d) ^^ zero_padded 2 (minute d) ^^
  zero_padded 2 (second d).

Definition log_user_query (user_input : string) (w : world) : world :=
  let (d, w1) := read_clock w in
  let timestamp := strftime_log d in
  mkWorld (requests w1) (clock_reads w1)
          (log_file w1 ++ ["[" ^^ timestamp ^^ "] User: " ^^ user_input ^^ nl])
          (files_written w1).

Definition tone_table : list (string * string) :=
  [ ("Friendly", "You are a helpful and friendly assistant.");
    ("Professional", "You are a formal and knowledgeable assistant.");
    ("Humorous", "You are a witty and engaging assistant.") ].

Definition detail_table : list (Z * string) :=
  [ (1%Z, "Give short and concise answers.");
    (2%Z, "Give balanced and informative answers.");
    (3%Z, "Give detailed and elaborate explanations.") ].

(** The two lookups of [get_system_prompt]. *)
Definition tone (mood : string) : string :=
  dict_get String.eqb tone_table mood "You are a helpful assistant.".

Definition detail (length : Z) : string :=
  dict_get Z.eqb detail_table length EmptyString.

(** [mood] is the dropdown's string and [length] the slider's integer. *)
Definition get_system_prompt (mood : string) (length : Z) : string :=
  tone mood ^^ " " ^^ detail length.

(** Lines 36 to 43 of [query_openai]: the message list of a request. *)
Definition build_messages (message : string) (chat_history : list turn)
           (mood : string) (length : Z) : list chat_message :=
  let system_prompt := get_system_prompt mood length in
  let messages := [mkMessage "system" system_prompt] in
  let messages :=
    fold_left (fun messages (t : turn) =>
                 let (user, bot) := t in
                 (messages ++ [mkMessage "user" user])
                   ++ [mkMessage "assistant" bot])
              chat_history messages in
  messages ++ [mkMessage "user" message].

Definition query_openai (message : string) (chat_history : list turn)
           (mood : string) (length : Z) (w : world) : outcome string * world :=
  let messages := build_messages message chat_history mood length in
  let w' := mkWorld (requests w ++ [messages]) (clock_reads w)
                    (log_file w) (files_written w) in
  (try_except
     (choices <- completions_create env (List.length (requests w)) messages ;;
      index0 choices)
     (fun e => Returns ("OpenAI API Error: " ^^ e)),
   w').

(** A callback's result: what it returned or raised, the conversation
    list as the callback left it, and the world. *)
Definition result (A : Type) : Type := outcome A * list turn * world.

Definition respond (message : string) (chat_history : list turn)
           (mood : string) (length : Z) (w : world) : result string :=
  let w := log_user_query message w in
  let (d, w) := read_clock w in
  let timestamp := strftime_clock d in
  match query_openai message chat_history mood length w with
  | (Raises e, w) => (Raises e, chat_history, w)
  | (Returns bot_reply, w) =>
      (Returns EmptyString,
       chat_history ++ [(message ^^ " (" ^^ timestamp ^^ ")",
                         bot_reply ^^ " (" ^^ timestamp ^^ ")")],
       w)
  end.

(** The [.txt] branch after the read. *)
Definition txt_note (content : string) : string :=
  if (LIMIT <? String.length content)%nat
  then nl ^^ nl ^^ "[Note: Text was truncated.]"
  else EmptyString.

Definition txt_prompt (content : string) : string :=
  let note := txt_note content in
  let content := slice_to LIMIT content in
  "Analyze this text file:" ^^ nl ^^ nl ^^ content ^^ note.

(** The [.csv] branch after the read. *)
Definition csv_prompt (df : dataframe) : outcome string :=
  summary <- df_describe df ;;
  let sample := df_head5 df in
  let cols := join ", " (df_columns df) in
  Returns
    ("This CSV file has " ^^ str_of_nat (df_len df) ^^ " rows and " ^^
     str_of_nat (List.length (df_columns df)) ^^ " columns." ^^ nl ^^ nl ^^
     "Columns: " ^^ cols ^^ nl ^^ nl ^^ "Sample rows:" ^^ nl ^^ sample ^^
     nl ^^ nl ^^ "Stats:" ^^ nl ^^ summary).

(** The page loop of the [.pdf] branch, entered with the text so far. *)
Fixpoint pdf_pages (doc : document) (text : string) : outcome string :=
  match doc with
  | [] => Returns text
  | page :: rest =>
      page_text <- page ;;
      let text := text ^^ page_text in
      if (LIMIT <? String.length text)%nat
      then Returns (slice_to LIMIT text)
      else pdf_pages rest text
  end.

Definition pdf_prompt (text : string) : string :=
  "Analyze this PDF content:" ^^ nl ^^ nl ^^ text ^^ nl ^^ nl ^^
  "[Note: PDF content was truncated.]".

(** The [if]/[elif] chain of the loop body of [process_file]: the
    prompt for a supported file, [None] for the [else] branch. *)
Definition file_prompt (file : upload) : outcome (option string) :=
  if endswith (name file) ".txt" then
    content <- open_read env (name file) ;;
    Returns (Some (txt_prompt content))
  else if endswith (name file) ".csv" then
    df <- read_csv env (name file) ;;
    prompt <- csv_prompt df ;;
    Returns (Some prompt)
  else if endswith (name file) ".pdf" then
    doc <- fitz_open env (name file) ;;
    text <- pdf_pages doc EmptyString ;;
    Returns (Some (pdf_prompt text))
  else Returns None.

Definition unsupported_turn (file : upload) : turn :=
  ("[Unsupported file: " ^^ name file ^^ "]",
   "Only .txt, .csv, or .pdf are supported.").

Definition uploaded_turn (file : upload) (response : string) : turn :=
  ("[Uploaded file: " ^^ name file ^^ "]", response).

(** The [for file in files] loop inside the [try]: [Raises e] is the
    exception that left the loop, with the list as it stood then. *)
Fixpoint process_loop (files : list upload) (chat_history : list turn)
         (mood : string) (length : Z) (w : world) : result unit :=
  match files with
  | [] => (Returns tt, chat_history, w)
  | file :: rest =>
      match file_prompt file with
      | Raises e => (Raises e, chat_history, w)
      | Returns None =>
          process_loop rest (chat_history ++ [unsupported_turn file])
                       mood length w
      | Returns (Some prompt) =>
          match query_openai prompt chat_history mood length w with
          | (Raises e, w) => (Raises e, chat_history, w)
          | (Returns response, w) =>
              process_loop rest (chat_history ++ [uploaded_turn file response])
                           mood length w
          end
      end
  end.

Definition process_file (files : list upload) (chat_history : list turn)
           (mood : string) (length : Z) (w : world) : result string :=
  match process_loop files chat_history mood length w with
  | (Returns _, chat_history, w) => (Returns EmptyString, chat_history, w)
  | (Raises e, chat_history, w) =>
      (Returns ("Error reading file(s): " ^^ e), chat_history, w)
  end.

(** The list comprehension of [summarize_chat]. *)
Definition transcript_block (t : turn) : string :=
  let (u, b) := t in "User: " ^^ u ^^ nl ^^ "Bot: " ^^ b.

Definition summarize_transcript (chat_history : list turn) : string :=
  join nl (map transcript_block chat_history).

Definition summarize_chat (chat_history : list turn) (w : world) : result string :=
  let transcript := summarize_transcript chat_history in
  let prompt := "Summarize this conversation:" ^^ nl ^^ nl ^^ transcript in
  let (summary, w) := query_openai prompt [] "Professional" 2%Z w in
  (summary, chat_history, w).

(** The body of the export: what the successive [f.write] calls of
    [download_chat] leave in the file. *)
Definition export_body (chat_history : list turn) : string :=
  fold_left (fun written (t : turn) =>
               let (user, bot) := t in
               written ^^ ("User: " ^^ user ^^ nl ^^ "Bot: " ^^ bot ^^ nl ^^ nl))
            chat_history EmptyString.

Definition download_chat (chat_history : list turn) (w : world) : result string :=
  let (d, w) := read_clock w in
  let now := strftime_file d in
  let filename := "chat_history_" ^^ now ^^ ".txt" in
  (Returns filename, chat_history,
   mkWorld (requests w) (clock_reads w) (log_file w)
           (files_written w ++ [(filename, export_body chat_history)])).

(** ** The wiring of the callbacks (lines 166 to 173)

    [state] holds the conversation list.  The callbacks that receive
    it mutate it in place; [clear] stores a fresh empty list. *)
Inductive action : Type :=
| Submit (message : string) (mood : string) (length : Z)
| Upload (files : list upload) (mood : string) (length : Z)
| Clear
| Download
| Summarize.

Definition handle (a : action) (state : list turn) (w : world)
  : list turn * world :=
  match a with
  | Submit message mood length =>
      let '(_, state, w) := respond message state mood length w in (state, w)
  | Upload files mood length =>
      let '(_, state, w) := process_file files state mood length w in (state, w)
  | Clear => ([], w)
  | Download =>
      let '(_, state, w) := download_chat state w in (state, w)
  | Summarize =>
      let '(_, state, w) := summarize_chat state w in (state, w)
  end.

End Program.

(** ** The rendering the specification describes

    Section 4.3 of the specification has one [asText] rendering for both
    export and summarization: the blocks joined by blank lines. *)
Definition asText (chat_history : list turn) : string :=
  join (nl ^^ nl) (map transcript_block chat_history).

(** The turn a batch leaves in the conversation for one of its files:
    the rejection of an unsupported file, or the analysis of a
    supported one. *)
Definition batch_turn (file : upload) (t : turn) : Prop :=
  t = unsupported_turn file \/ exists response, t = uploaded_turn file response.

(** The user message and the assistant message a turn is sent as. *)
Definition turn_messages (t : turn) : list chat_message :=
  [mkMessage "user" (fst t); mkMessage "assistant" (snd t)].

(** ** The file preview

    [preview_file] reads two things the upload handler does not: the
    first three rows of a table, [df.head(3).to_string(index=False)],
    and the first page of a document by index, [doc[0]], which raises
    on a document without pages.  Both are taken from the outside. *)
Section Preview.

Variable env : environment.

(** [df.head(3).to_string(index=False)] *)
Variable df_head3 : dataframe -> string.

(** The [str()] of the exception [doc[0]] raises on an empty document. *)
Variable no_page : string.

(** The cap on a preview, the literal [500] of [preview_file]. *)
Definition PREVIEW : nat := 500.

(** [doc[0].get_text()] *)
Definition first_page_text (doc : document) : outcome string :=
  match doc with
  | page :: _ => page
  | [] => Raises no_page
  end.

(** The [if]/[elif] chain of the loop body of [preview_file]: the text
    it appends to [previews]. *)
Definition preview_entry (file : upload) : outcome string :=
  if endswith (name file) ".txt" then
    content <- open_read env (name file) ;;
    Returns (slice_to PREVIEW content)
  else if endswith (name file) ".csv" then
    df <- read_csv env (name file) ;;
    Returns (df_head3 df)
  else if endswith (name file) ".pdf" then
    doc <- fitz_open env (name file) ;;
    text <- first_page_text doc ;;
    Returns (slice_to PREVIEW text)
  else Returns "Unsupported file.".

(** The loop inside the [try] together with the [except] clause: the
    list [previews] when the [return] is reached. *)
Fixpoint preview_loop (files : list upload) (previews : list string)
  : list string :=
  match files with
  | [] => previews
  | file :: rest =>
      match preview_entry file with
      | Returns p => preview_loop rest (previews ++ [p])
      | Raises e => previews ++ ["Error: " ^^ e]
      end
  end.

Definition preview_file (files : list upload) : string :=
  join (nl ^^ "---" ^^ nl) (preview_loop files []).

End Preview.

(** ** A session

    The callbacks run one after the other on the session's state; each
    runs to its end before the next starts. *)
Fixpoint run (env : environment) (actions : list action) (state : list turn)
         (w : world) : list turn * world :=
  match actions with
  | [] => (state, w)
  | a :: rest =>
      let (state', w') := handle env a state w in run env rest state' w'
  end.

Definition is_submit (a : action) : bool :=
  match a with Submit _ _ _ => true | _ => false end.

Definition is_download (a : action) : bool :=
  match a with Download => true | _ => false end.

(** The file name tests of [process_file] and [preview_file]. *)
Definition supported (file : upload) : bool :=
  endswith (name file) ".txt" || endswith (name file) ".csv"
  || endswith (name file) ".pdf".

(** A datetime whose fields are within what [strftime] prints at fixed
    width: four digits for the year, two for the others. *)
Definition printable (d : datetime) : Prop :=
  year d < 100 * 100 /\ month d < 100 /\ day d < 100
  /\ hour d < 100 /\ minute d < 100 /\ second d < 100.

(** ** Sample inputs

    A small outside world on which the statements below are run. *)
Module Sample.

(** [c * n] *)
Fixpoint repeat_char (c : ascii) (n : nat) : string :=
  match n with
  | O => EmptyString
  | S n' => String c (repeat_char c n')
  end.

Definition long_text : string := repeat_char "a"%char 4000.
Definition short_text : string := repeat_char "b"%char 100.

(** The provider answers the first request and is unreachable after. *)
Definition provider (n : nat) (messages : list chat_message)
  : outcome (list string) :=
  match n with
  | O => Returns ["Hi there!"]
  | S _ => Raises "Connection error."
  end.

Definition disk_text (path : string) : outcome string :=
  if (path =? "long.txt")%string then Returns long_text
  else if (path =? "short.txt")%string then Returns short_text
  else Raises "[Errno 2] No such file or directory".

Definition disk_csv (path : string) : outcome dataframe :=
  Raises "No columns to parse from file".

Definition disk_pdf (path : string) : outcome document :=
  if (path =? "paper.pdf")%string
  then Returns [Returns long_text; Raises "page 2 is damaged"]
  else if (path =? "memo.pdf")%string
  then Returns [Returns short_text; Returns short_text]
  else Raises "cannot open broken document".

Definition env : environment :=
  mkEnvironment provider (fun _ => mkDatetime 2024 5 17 9 3 41)
                disk_text disk_csv disk_pdf.

Definition two_turns : list turn := [("a", "b"); ("c", "d")].

End Sample.

(** Further sample inputs: a table, an empty document, a provider that
    echoes the number of the request. *)
Module Sample2.

Definition table : dataframe :=
  mkDataframe 2 ["id"; "name"] (Returns "count 2") "1 ann".

Definition disk_csv (path : string) : outcome dataframe :=
  if (path =? "data.csv")%string then Returns table
  else Raises "No columns to parse from file".

Definition disk_pdf (path : string) : outcome document :=
  if (path =? "empty.pdf")%string then Returns []
  else if (path =? "torn.pdf")%string
  then Returns [Returns Sample.short_text; Raises "page 2 is damaged";
                Returns Sample.long_text]
  else Sample.disk_pdf path.

Definition provider (n : nat) (messages : list chat_message)
  : outcome (list string) :=
  match n with
  | O => Returns ["one"]
  | S O => Returns []
  | S (S _) => Returns ["more"; "other"]
  end.

Definition clock (n : nat) : datetime := mkDatetime 2024 5 17 9 3 (41 + n).

Definition env : environment :=
  mkEnvironment provider clock Sample.disk_text disk_csv disk_pdf.

Definition head3 (df : dataframe) : string := df_head5 df.

End Sample2.

(** * Properties *)

(** ** Strings *)

Section StringFacts.

Lemma append_length (a b : string) :
  String.length (a ^^ b) = String.length a + String.length b.
Proof. induction a as [|c a IH]; simpl; [reflexivity | now rewrite IH]. Qed.

Lemma append_assoc (a b c : string) : (a ^^ b) ^^ c = a ^^ (b ^^ c).
Proof. induction a as [|x a IH]; simpl; [reflexivity | now rewrite IH]. Qed.

Lemma append_empty_r (a : string) : a ^^ EmptyString = a.
Proof. induction a as [|x a IH]; simpl; [reflexivity | now rewrite IH]. Qed.

Lemma slice_to_length (n : nat) (s : string) :
  String.length (slice_to n s) = Nat.min n (String.length s).
Proof.
  revert s; induction n as [|n IH]; intros [|c s]; simpl; try reflexivity.
  now rewrite IH.
Qed.

Lemma slice_to_short (n : nat) (s : string) :
  String.length s <= n -> slice_to n s = s.
Proof.
  revert s; induction n as [|n IH]; intros [|c s]; simpl; intros H;
    try reflexivity; try lia.
  rewrite IH by lia; reflexivity.
Qed.

Lemma slice_to_append (n : nat) (a b : string) :
  n <= String.length a -> slice_to n (a ^^ b) = slice_to n a.
Proof.
  revert a; induction n as [|n IH]; intros [|c a]; simpl; intros H;
    try reflexivity; try lia.
  rewrite IH by lia; reflexivity.
Qed.

End StringFacts.

(** ** The prompt builder *)

Lemma fold_left_messages (chat_history : list turn) (messages : list chat_message) :
  fold_left (fun messages (t : turn) =>
               let (user, bot) := t in
               (messages ++ [mkMessage "user" user]) ++ [mkMessage "assistant" bot])
            chat_history messages
  = messages ++ flat_map (fun t : turn =>
                            [mkMessage "user" (fst t); mkMessage "assistant" (snd t)])
                         chat_history.
Proof.
  revert messages; induction chat_history as [|[user bot] rest IH]; intros messages.
  - simpl; now rewrite app_nil_r.
  - simpl fold_left; rewrite IH; simpl; now rewrite <- !app_assoc.
Qed.

(** C1.  The message list of a request is the system message carrying
    the system prompt, then every turn of the history, in order, as a
    user message followed by an assistant message, then the new user
    message.  It holds exactly one system message, its last message is
    the new user message, and it has 2 * (turns of the history) + 2
    messages. *)
Theorem build_messages_shape (message : string) (chat_history : list turn)
        (mood : string) (length : Z) :
  let messages := build_messages message chat_history mood length in
  messages
  = [mkMessage "system" (get_system_prompt mood length)]
      ++ flat_map (fun t : turn =>
                     [mkMessage "user" (fst t); mkMessage "assistant" (snd t)])
                  chat_history
      ++ [mkMessage "user" message]
  /\ List.length (filter (fun m => (role m =? "system")%string) messages) = 1
  /\ last messages (mkMessage EmptyString EmptyString) = mkMessage "user" message
  /\ List.length messages = 2 * List.length chat_history + 2.
Proof.
  intros messages.
  assert (E : messages
              = [mkMessage "system" (get_system_prompt mood length)]
                  ++ flat_map (fun t : turn =>
                       [mkMessage "user" (fst t); mkMessage "assistant" (snd t)])
                     chat_history
                  ++ [mkMessage "user" message]).
  { unfold messages, build_messages.
    rewrite fold_left_messages, <- app_assoc; reflexivity. }
  split; [exact E|].
  rewrite E; clear E messages.
  repeat split.
  - simpl. induction chat_history as [|t rest IH]; simpl; [reflexivity | exact IH].
  - rewrite app_assoc, last_last; reflexivity.
  - simpl. rewrite length_app; simpl.
    induction chat_history as [|t rest IH]; simpl; [reflexivity | lia].
Qed.

(** C2.  [get_system_prompt] is a function of the mood and the detail
    level alone, and its result is never empty.  A mood other than the
    three known ones gets the default tone, a level other than 1, 2, 3
    gets the empty detail clause, and Friendly at level 2 gives the
    sentence quoted in the specification. *)
Theorem get_system_prompt_spec (mood : string) (length : Z) :
  get_system_prompt mood length = tone mood ^^ " " ^^ detail length
  /\ get_system_prompt mood length <> EmptyString
  /\ (mood <> "Friendly" -> mood <> "Professional" -> mood <> "Humorous" ->
      tone mood = "You are a helpful assistant.")
  /\ (length <> 1%Z -> length <> 2%Z -> length <> 3%Z ->
      detail length = EmptyString)
  /\ get_system_prompt "Friendly" 2
     = "You are a helpful and friendly assistant. Give balanced and informative answers.".
Proof.
  split; [reflexivity|].
  split.
  { unfold get_system_prompt; destruct (tone mood); discriminate. }
  split.
  { intros F P H; unfold tone, tone_table, dict_get.
    rewrite !(proj2 (String.eqb_neq _ mood)) by congruence.
    reflexivity. }
  split; [|reflexivity].
  intros H1 H2 H3; unfold detail, detail_table, dict_get.
  rewrite !(proj2 (Z.eqb_neq _ length)) by congruence.
  reflexivity.
Qed.

Lemma get_system_prompt_spec_witness :
  tone "Grumpy" = "You are a helpful assistant."
  /\ detail 7 = EmptyString
  /\ get_system_prompt "Grumpy" 7 = "You are a helpful assistant. ".
Proof.
  destruct (get_system_prompt_spec "Grumpy" 7) as (E & _ & T & D & _).
  rewrite E.
  rewrite T by (intros H; discriminate H).
  rewrite D by (intros H; discriminate H).
  repeat split.
Defined.

(** ** The completion client *)

Lemma query_openai_world env message chat_history mood length w :
  snd (query_openai env message chat_history mood length w)
  = mkWorld (requests w ++ [build_messages message chat_history mood length])
            (clock_reads w) (log_file w) (files_written w).
Proof. reflexivity. Qed.

Lemma query_openai_returns env message chat_history mood length w :
  exists reply,
    query_openai env message chat_history mood length w
    = (Returns reply,
       mkWorld (requests w ++ [build_messages message chat_history mood length])
               (clock_reads w) (log_file w) (files_written w)).
Proof.
  unfold query_openai.
  destruct (completions_create env _ _) as [[|first others]|e]; simpl; eauto.
Qed.

(** C3.  [query_openai] always returns a string and never raises.  When
    the provider answers with at least one choice the result is the
    first choice's text; when the provider call raises with text [e] the
    result is "OpenAI API Error: " followed by [e]. *)
Theorem query_openai_never_raises env message chat_history mood length w :
  let messages := build_messages message chat_history mood length in
  let answer := completions_create env (List.length (requests w)) messages in
  let returned := fst (query_openai env message chat_history mood length w) in
  (exists reply, returned = Returns reply)
  /\ (forall first others, answer = Returns (first :: others) ->
      returned = Returns first)
  /\ (forall e, answer = Raises e ->
      returned = Returns ("OpenAI API Error: " ^^ e)).
Proof.
  intros messages answer returned.
  unfold returned, query_openai; fold messages; fold answer; simpl.
  repeat split.
  - destruct answer as [[|first others]|e]; simpl; eauto.
  - intros first others ->; reflexivity.
  - intros e ->; reflexivity.
Qed.

Lemma query_openai_never_raises_witness :
  fst (query_openai Sample.env "Hello" [] "Friendly" 2 initial_world)
  = Returns "Hi there!"
  /\ fst (query_openai Sample.env "Hello" [] "Friendly" 2
                       (mkWorld [[]] 0 [] []))
     = Returns "OpenAI API Error: Connection error.".
Proof.
  split.
  - destruct (query_openai_never_raises Sample.env "Hello" [] "Friendly" 2
                                        initial_world) as (_ & H & _).
    apply (H "Hi there!" []); reflexivity.
  - destruct (query_openai_never_raises Sample.env "Hello" [] "Friendly" 2
                                        (mkWorld [[]] 0 [] [])) as (_ & _ & H).
    apply (H "Connection error."); reflexivity.
Defined.

(** ** The document extractor *)

Lemma slice_to_prefix (n : nat) (s : string) :
  exists rest, s = slice_to n s ^^ rest.
Proof.
  revert s; induction n as [|n IH]; intros [|c s]; simpl;
    try (eexists; reflexivity).
  destruct (IH s) as [rest E]; exists rest; now rewrite <- E.
Qed.

Lemma slice_to_exact (n : nat) (s : string) :
  n <= String.length s -> String.length (slice_to n s) = n.
Proof. intros H; rewrite slice_to_length; lia. Qed.

(** Two suffixes of one length at the end of the same string are equal,
    so at most one branch of the [if]/[elif] chain fits a file name. *)
Lemma endswith_same_length (s a b : string) :
  String.length a = String.length b ->
  endswith s a = true -> endswith s b = true -> a = b.
Proof.
  unfold endswith; intros L Ha Hb.
  apply andb_prop in Ha as [_ Ha]; apply andb_prop in Hb as [_ Hb].
  apply String.eqb_eq in Ha, Hb.
  rewrite <- L in Hb; congruence.
Qed.

Lemma file_prompt_txt env file :
  endswith (name file) ".txt" = true ->
  file_prompt env file
  = (content <- open_read env (name file) ;; Returns (Some (txt_prompt content))).
Proof. unfold file_prompt; intros ->; reflexivity. Qed.

Lemma file_prompt_pdf env file :
  endswith (name file) ".pdf" = true ->
  file_prompt env file
  = (doc <- fitz_open env (name file) ;;
     text <- pdf_pages doc EmptyString ;;
     Returns (Some (pdf_prompt text))).
Proof.
  intros H; unfold file_prompt.
  destruct (endswith (name file) ".txt") eqn:T.
  { discriminate (endswith_same_length _ ".txt" ".pdf" eq_refl T H). }
  destruct (endswith (name file) ".csv") eqn:C.
  { discriminate (endswith_same_length _ ".csv" ".pdf" eq_refl C H). }
  rewrite H; reflexivity.
Qed.

Lemma file_prompt_unsupported env file :
  endswith (name file) ".txt" = false ->
  endswith (name file) ".csv" = false ->
  endswith (name file) ".pdf" = false ->
  file_prompt env file = Returns None.
Proof. unfold file_prompt; intros -> -> ->; reflexivity. Qed.

(** C9.  For a [.txt] file the whole text is read.  The prompt carries
    its first 3000 characters and the truncation note: when the text is
    longer than 3000 characters the excerpt has exactly 3000 characters
    and the note is present (so for 4000 characters), otherwise the
    excerpt is the whole text and the note is empty (so for 100
    characters). *)
Theorem txt_excerpt_spec env file content :
  endswith (name file) ".txt" = true ->
  open_read env (name file) = Returns content ->
  file_prompt env file
  = Returns (Some ("Analyze this text file:" ^^ nl ^^ nl ^^
                   slice_to 3000 content ^^ txt_note content))
  /\ (exists dropped, content = slice_to 3000 content ^^ dropped)
  /\ (3000 < String.length content ->
      String.length (slice_to 3000 content) = 3000
      /\ txt_note content = nl ^^ nl ^^ "[Note: Text was truncated.]")
  /\ (String.length content <= 3000 ->
      slice_to 3000 content = content /\ txt_note content = EmptyString)
  /\ (String.length content = 4000 ->
      String.length (slice_to 3000 content) = 3000
      /\ txt_note content = nl ^^ nl ^^ "[Note: Text was truncated.]")
  /\ (String.length content = 100 ->
      slice_to 3000 content = content /\ txt_note content = EmptyString).
Proof.
  intros T R.
  assert (Long : 3000 < String.length content ->
                 String.length (slice_to 3000 content) = 3000
                 /\ txt_note content = nl ^^ nl ^^ "[Note: Text was truncated.]").
  { intros H; split; [apply slice_to_exact; lia|].
    unfold txt_note, LIMIT.
    destruct (Nat.ltb_spec 3000 (String.length content)); [reflexivity | lia]. }
  assert (Short : String.length content <= 3000 ->
                  slice_to 3000 content = content /\ txt_note content = EmptyString).
  { intros H; split; [apply slice_to_short; exact H|].
    unfold txt_note, LIMIT.
    destruct (Nat.ltb_spec 3000 (String.length content)); [lia | reflexivity]. }
  split; [rewrite (file_prompt_txt env file T), R; reflexivity|].
  split; [apply slice_to_prefix|].
  split; [exact Long|].
  split; [exact Short|].
  split; intros H; [apply Long | apply Short]; rewrite H.
  - apply Nat.ltb_lt; vm_compute; reflexivity.
  - apply Nat.leb_le; vm_compute; reflexivity.
Qed.

Lemma txt_excerpt_spec_witness :
  String.length Sample.long_text = 4000
  /\ String.length (slice_to 3000 Sample.long_text) = 3000
  /\ txt_note Sample.long_text = nl ^^ nl ^^ "[Note: Text was truncated.]"
  /\ String.length Sample.short_text = 100
  /\ slice_to 3000 Sample.short_text = Sample.short_text
  /\ txt_note Sample.short_text = EmptyString.
Proof.
  assert (L4 : String.length Sample.long_text = 4000) by (vm_compute; reflexivity).
  assert (L1 : String.length Sample.short_text = 100) by (vm_compute; reflexivity).
  destruct (txt_excerpt_spec Sample.env (mkUpload "long.txt") Sample.long_text
                             eq_refl eq_refl) as (_ & _ & _ & _ & H4 & _).
  destruct (txt_excerpt_spec Sample.env (mkUpload "short.txt") Sample.short_text
                             eq_refl eq_refl) as (_ & _ & _ & _ & _ & H1).
  destruct (H4 L4) as [A B]; destruct (H1 L1) as [C D].
  repeat split; assumption.
Defined.

Lemma join_empty_cons (p : string) (rest : list string) :
  join EmptyString (p :: rest) = p ^^ join EmptyString rest.
Proof. destruct rest; simpl; [now rewrite append_empty_r | reflexivity]. Qed.

(** The page loop stops at the first page that takes the text over the
    limit: the pages after it are not looked at. *)
Lemma pdf_pages_over (read : list string) (rest : document) (text : string) :
  String.length text <= LIMIT ->
  LIMIT < String.length (text ^^ join EmptyString read) ->
  pdf_pages (map Returns read ++ rest) text
  = Returns (slice_to LIMIT (text ^^ join EmptyString read)).
Proof.
  revert text; induction read as [|p read IH]; intros text Hle Hgt.
  - simpl in Hgt; rewrite append_empty_r in Hgt; lia.
  - rewrite join_empty_cons in *; rewrite <- append_assoc in *.
    simpl map; simpl app; simpl pdf_pages.
    destruct (Nat.ltb_spec LIMIT (String.length (text ^^ p))) as [Over|Under].
    + now rewrite slice_to_append by lia.
    + apply IH; assumption.
Qed.

Lemma pdf_pages_under (texts : list string) (text : string) :
  String.length (text ^^ join EmptyString texts) <= LIMIT ->
  pdf_pages (map Returns texts) text = Returns (text ^^ join EmptyString texts).
Proof.
  revert text; induction texts as [|p texts IH]; intros text Hle.
  - simpl; now rewrite append_empty_r.
  - rewrite join_empty_cons in *; rewrite <- append_assoc in *.
    simpl map; simpl pdf_pages.
    destruct (Nat.ltb_spec LIMIT (String.length (text ^^ p))) as [Over|Under].
    + rewrite append_length in Hle; lia.
    + apply IH; assumption.
Qed.

(** C8.  For a [.pdf] file the pages are read in order and their text
    concatenated.  As soon as the pages read so far hold more than 3000
    characters the text is cut to exactly its first 3000 characters and
    whatever follows in the document is not read; a document of at most
    3000 characters is taken whole.  In both cases the prompt ends with
    the truncation note. *)
Theorem pdf_excerpt_spec env file doc :
  endswith (name file) ".pdf" = true ->
  fitz_open env (name file) = Returns doc ->
  (forall read rest,
      doc = map Returns read ++ rest ->
      3000 < String.length (join EmptyString read) ->
      file_prompt env file
      = Returns (Some ("Analyze this PDF content:" ^^ nl ^^ nl ^^
                       slice_to 3000 (join EmptyString read) ^^ nl ^^ nl ^^
                       "[Note: PDF content was truncated.]"))
      /\ String.length (slice_to 3000 (join EmptyString read)) = 3000)
  /\ (forall texts,
      doc = map Returns texts ->
      String.length (join EmptyString texts) <= 3000 ->
      file_prompt env file
      = Returns (Some ("Analyze this PDF content:" ^^ nl ^^ nl ^^
                       join EmptyString texts ^^ nl ^^ nl ^^
                       "[Note: PDF content was truncated.]"))).
Proof.
  intros P O; rewrite (file_prompt_pdf env file P), O.
  split.
  - intros read rest -> Over; split; [|apply slice_to_exact; lia].
    simpl bind.
    rewrite (pdf_pages_over read rest EmptyString); [reflexivity | | exact Over].
    simpl; lia.
  - intros texts -> Under; simpl bind.
    rewrite (pdf_pages_under texts EmptyString); [reflexivity | exact Under].
Qed.

Lemma pdf_excerpt_spec_witness :
  file_prompt Sample.env (mkUpload "paper.pdf")
  = Returns (Some ("Analyze this PDF content:" ^^ nl ^^ nl ^^
                   slice_to 3000 Sample.long_text ^^ nl ^^ nl ^^
                   "[Note: PDF content was truncated.]"))
  /\ file_prompt Sample.env (mkUpload "memo.pdf")
     = Returns (Some ("Analyze this PDF content:" ^^ nl ^^ nl ^^
                      (Sample.short_text ^^ Sample.short_text) ^^ nl ^^ nl ^^
                      "[Note: PDF content was truncated.]")).
Proof.
  split.
  - destruct (pdf_excerpt_spec Sample.env (mkUpload "paper.pdf")
                [Returns Sample.long_text; Raises "page 2 is damaged"]
                eq_refl eq_refl) as [H _].
    destruct (H [Sample.long_text] [Raises "page 2 is damaged"] eq_refl) as [E _].
    + apply Nat.ltb_lt; vm_compute; reflexivity.
    + exact E.
  - destruct (pdf_excerpt_spec Sample.env (mkUpload "memo.pdf")
                [Returns Sample.short_text; Returns Sample.short_text]
                eq_refl eq_refl) as [_ H].
    apply (H [Sample.short_text; Sample.short_text] eq_refl).
    apply Nat.leb_le; vm_compute; reflexivity.
Defined.

(** ** The upload handler *)

Section Upload.

Variable env : environment.
Variables (mood : string) (length : Z).

Lemma build_messages_eq (message : string) (chat_history : list turn) :
  build_messages message chat_history mood length
  = [mkMessage "system" (get_system_prompt mood length)]
      ++ flat_map turn_messages chat_history ++ [mkMessage "user" message].
Proof.
  unfold build_messages; rewrite fold_left_messages, <- app_assoc; reflexivity.
Qed.

(** A batch is processed file by file: what the loop does on [more]
    depends on [pre] only through the conversation and the world
    that [pre] left, and an exception in [pre] ends the batch. *)
Lemma process_loop_app (pre more : list upload) (chat_history : list turn)
      (w : world) :
  process_loop env (pre ++ more) chat_history mood length w
  = match process_loop env pre chat_history mood length w with
    | (Returns _, chat_history', w') =>
        process_loop env more chat_history' mood length w'
    | (Raises e, chat_history', w') => (Raises e, chat_history', w')
    end.
Proof.
  revert chat_history w; induction pre as [|file pre IH]; intros chat_history w.
  - reflexivity.
  - cbn [app process_loop].
    destruct (file_prompt env file) as [[prompt|]|e]; [ | apply IH | reflexivity].
    destruct (query_openai env prompt chat_history mood length w)
      as [[response|e] w1]; [apply IH | reflexivity].
Qed.

Lemma process_file_ok (files : list upload) (chat_history : list turn)
      (w : world) (chat_history' : list turn) (w' : world) :
  process_file env files chat_history mood length w
  = (Returns EmptyString, chat_history', w') ->
  process_loop env files chat_history mood length w
  = (Returns tt, chat_history', w').
Proof.
  unfold process_file.
  destruct (process_loop env files chat_history mood length w)
    as [[[[]|e] h1] w1]; intros H.
  - now inversion H.
  - discriminate H.
Qed.

(** The loop only appends: one turn per file when it runs to its end. *)
Lemma process_loop_appends (files : list upload) (chat_history : list turn)
      (w : world) :
  exists appended,
    snd (fst (process_loop env files chat_history mood length w))
    = chat_history ++ appended
    /\ (forall u, fst (fst (process_loop env files chat_history mood length w))
                  = Returns u ->
        Forall2 batch_turn files appended).
Proof.
  revert chat_history w; induction files as [|file files IH]; intros chat_history w.
  - exists []; simpl; split; [now rewrite app_nil_r | constructor].
  - cbn [process_loop].
    destruct (file_prompt env file) as [[prompt|]|e].
    + destruct (query_openai_returns env prompt chat_history mood length w)
        as [response ->].
      destruct (IH (chat_history ++ [uploaded_turn file response])
                   (mkWorld (requests w
                               ++ [build_messages prompt chat_history mood length])
                            (clock_reads w) (log_file w) (files_written w)))
        as (appended & E & F).
      exists (uploaded_turn file response :: appended); split.
      * rewrite E, <- app_assoc; reflexivity.
      * intros u Hu; constructor; [right; eauto | eapply F; eassumption].
    + destruct (IH (chat_history ++ [unsupported_turn file]) w)
        as (appended & E & F).
      exists (unsupported_turn file :: appended); split.
      * rewrite E, <- app_assoc; reflexivity.
      * intros u Hu; constructor; [left; reflexivity | eapply F; eassumption].
    + exists []; simpl; split; [now rewrite app_nil_r | discriminate].
Qed.

Lemma process_file_appends (files : list upload) (chat_history : list turn)
      (w : world) (chat_history' : list turn) (w' : world) :
  process_file env files chat_history mood length w
  = (Returns EmptyString, chat_history', w') ->
  exists appended,
    chat_history' = chat_history ++ appended /\ Forall2 batch_turn files appended.
Proof.
  intros H; apply process_file_ok in H.
  destruct (process_loop_appends files chat_history w) as (appended & E & F).
  rewrite H in E, F; simpl in E, F.
  exists appended; split; [exact E | apply (F tt); reflexivity].
Qed.

Lemma process_file_after (pre more : list upload) (chat_history : list turn)
      (w : world) (chat_history' : list turn) (w' : world) :
  process_file env pre chat_history mood length w
  = (Returns EmptyString, chat_history', w') ->
  process_file env (pre ++ more) chat_history mood length w
  = match process_loop env more chat_history' mood length w' with
    | (Returns _, h, w1) => (Returns EmptyString, h, w1)
    | (Raises e, h, w1) => (Returns ("Error reading file(s): " ^^ e), h, w1)
    end.
Proof.
  intros H; apply process_file_ok in H.
  unfold process_file; rewrite process_loop_app, H; reflexivity.
Qed.

End Upload.

(** C4.  A file whose name ends in none of ".txt", ".csv", ".pdf" gets
    the fixed rejection turn appended, the world (and so the list of
    requests sent to the provider) stays as it was, and the batch goes
    on with the files after it.  The suffix test is exact: "NOTES.TXT"
    is rejected like "report.docx". *)
Theorem unsupported_file_rejected env (pre : list upload) (file : upload)
        (rest : list upload) (chat_history : list turn) (mood : string)
        (length : Z) (w : world) (history_before : list turn) (w_before : world) :
  endswith (name file) ".txt" = false ->
  endswith (name file) ".csv" = false ->
  endswith (name file) ".pdf" = false ->
  process_file env pre chat_history mood length w
  = (Returns EmptyString, history_before, w_before) ->
  let rejection : turn :=
    ("[Unsupported file: " ^^ name file ^^ "]",
     "Only .txt, .csv, or .pdf are supported.") in
  process_file env (pre ++ file :: rest) chat_history mood length w
  = process_file env rest (history_before ++ [rejection]) mood length w_before
  /\ process_file env (pre ++ [file]) chat_history mood length w
     = (Returns EmptyString, history_before ++ [rejection], w_before).
Proof.
  intros T C P Pre rejection.
  pose proof (file_prompt_unsupported env file T C P) as U.
  split.
  - rewrite (process_file_after env mood length pre (file :: rest) _ _ _ _ Pre).
    cbn [process_loop]; rewrite U; reflexivity.
  - rewrite (process_file_after env mood length pre [file] _ _ _ _ Pre).
    cbn [process_loop]; rewrite U; reflexivity.
Qed.

Lemma unsupported_file_rejected_witness :
  process_file Sample.env
               [mkUpload "report.docx"; mkUpload "NOTES.TXT"; mkUpload "short.txt"]
               [] "Friendly" 2 initial_world
  = process_file Sample.env [mkUpload "short.txt"]
                 [("[Unsupported file: report.docx]",
                   "Only .txt, .csv, or .pdf are supported.");
                  ("[Unsupported file: NOTES.TXT]",
                   "Only .txt, .csv, or .pdf are supported.")]
                 "Friendly" 2 initial_world.
Proof.
  destruct (unsupported_file_rejected Sample.env [] (mkUpload "report.docx")
              [mkUpload "NOTES.TXT"; mkUpload "short.txt"] [] "Friendly" 2
              initial_world [] initial_world eq_refl eq_refl eq_refl eq_refl)
    as [_ First].
  destruct (unsupported_file_rejected Sample.env [mkUpload "report.docx"]
              (mkUpload "NOTES.TXT") [mkUpload "short.txt"] [] "Friendly" 2
              initial_world _ initial_world eq_refl eq_refl eq_refl First)
    as [Second _].
  exact Second.
Defined.

(** C6.  When reading or extracting a file of a batch raises, the files
    after it are not processed, the reply is "Error reading file(s): "
    followed by the exception text, and the conversation is the one the
    earlier files of the batch left: the conversation before the upload
    followed by one turn for each earlier file. *)
Theorem failing_file_aborts_batch env (pre : list upload) (file : upload)
        (rest : list upload) (chat_history : list turn) (mood : string)
        (length : Z) (w : world) (history_before : list turn) (w_before : world)
        (e : string) :
  process_file env pre chat_history mood length w
  = (Returns EmptyString, history_before, w_before) ->
  file_prompt env file = Raises e ->
  process_file env (pre ++ file :: rest) chat_history mood length w
  = (Returns ("Error reading file(s): " ^^ e), history_before, w_before)
  /\ exists appended,
      history_before = chat_history ++ appended
      /\ Forall2 batch_turn pre appended.
Proof.
  intros Pre Fails; split.
  - rewrite (process_file_after env mood length pre (file :: rest) _ _ _ _ Pre).
    cbn [process_loop]; rewrite Fails; reflexivity.
  - exact (process_file_appends env mood length pre _ _ _ _ Pre).
Qed.

Lemma failing_file_aborts_batch_witness :
  process_file Sample.env
               [mkUpload "report.docx"; mkUpload "broken.pdf"; mkUpload "short.txt"]
               [("Hello", "Hi")] "Friendly" 2 initial_world
  = (Returns "Error reading file(s): cannot open broken document",
     [("Hello", "Hi");
      ("[Unsupported file: report.docx]", "Only .txt, .csv, or .pdf are supported.")],
     initial_world).
Proof.
  apply (failing_file_aborts_batch Sample.env [mkUpload "report.docx"]
           (mkUpload "broken.pdf") [mkUpload "short.txt"] [("Hello", "Hi")]
           "Friendly" 2 initial_world); reflexivity.
Defined.

(** C10.  In a batch, the request sent for a supported file is built
    from the conversation as it stands when the file is reached: the
    conversation before the upload followed by one turn, rejection or
    analysis, for each earlier file of the batch.  The request is the
    system message, these turns as user and assistant messages, and the
    file's analysis prompt as the last user message. *)
Theorem batch_request_carries_conversation env (pre : list upload)
        (file : upload) (rest : list upload) (chat_history : list turn)
        (mood : string) (length : Z) (w : world)
        (history_before : list turn) (w_before : world) (prompt : string) :
  process_file env pre chat_history mood length w
  = (Returns EmptyString, history_before, w_before) ->
  file_prompt env file = Returns (Some prompt) ->
  let request :=
    [mkMessage "system" (get_system_prompt mood length)]
      ++ flat_map turn_messages history_before
      ++ [mkMessage "user" prompt] in
  let w_after :=
    mkWorld (requests w_before ++ [request]) (clock_reads w_before)
            (log_file w_before) (files_written w_before) in
  (exists appended,
      history_before = chat_history ++ appended
      /\ Forall2 batch_turn pre appended)
  /\ exists response,
      process_file env (pre ++ file :: rest) chat_history mood length w
      = process_file env rest
          (history_before ++ [("[Uploaded file: " ^^ name file ^^ "]", response)])
          mood length w_after.
Proof.
  intros Pre Prompt request w_after; split.
  - exact (process_file_appends env mood length pre _ _ _ _ Pre).
  - destruct (query_openai_returns env prompt history_before mood length w_before)
      as [response Q].
    exists response.
    rewrite (process_file_after env mood length pre (file :: rest) _ _ _ _ Pre).
    cbn [process_loop]; rewrite Prompt, Q.
    rewrite build_messages_eq; reflexivity.
Qed.

Lemma batch_request_carries_conversation_witness :
  exists response,
    process_file Sample.env
                 [mkUpload "report.docx"; mkUpload "short.txt"; mkUpload "memo.pdf"]
                 [("Hello", "Hi")] "Friendly" 2 initial_world
    = process_file Sample.env [mkUpload "memo.pdf"]
        ([("Hello", "Hi");
          ("[Unsupported file: report.docx]",
           "Only .txt, .csv, or .pdf are supported.")]
           ++ [("[Uploaded file: short.txt]", response)])
        "Friendly" 2
        (mkWorld
           [[mkMessage "system" (get_system_prompt "Friendly" 2);
             mkMessage "user" "Hello"; mkMessage "assistant" "Hi";
             mkMessage "user" "[Unsupported file: report.docx]";
             mkMessage "assistant" "Only .txt, .csv, or .pdf are supported.";
             mkMessage "user" (txt_prompt Sample.short_text)]]
           0 [] []).
Proof.
  destruct (batch_request_carries_conversation Sample.env [mkUpload "report.docx"]
              (mkUpload "short.txt") [mkUpload "memo.pdf"] [("Hello", "Hi")]
              "Friendly" 2 initial_world
              [("Hello", "Hi");
               ("[Unsupported file: report.docx]",
                "Only .txt, .csv, or .pdf are supported.")]
              initial_world (txt_prompt Sample.short_text) eq_refl eq_refl)
    as [_ [response E]].
  exists response; exact E.
Defined.

(** ** The conversation store *)

Lemma respond_appends env message chat_history mood length w :
  exists t, snd (fst (respond env message chat_history mood length w))
            = chat_history ++ [t].
Proof.
  cbv beta iota zeta delta [respond read_clock log_user_query].
  match goal with
  | |- context [query_openai ?e ?m ?h ?mo ?l ?w1] =>
      destruct (query_openai_returns e m h mo l w1) as [reply ->]
  end.
  eexists; reflexivity.
Qed.

Lemma summarize_chat_keeps env chat_history w :
  snd (fst (summarize_chat env chat_history w)) = chat_history.
Proof.
  unfold summarize_chat.
  match goal with
  | |- context [query_openai ?e ?m ?h ?mo ?l ?w1] =>
      destruct (query_openai e m h mo l w1) as [summary w2]
  end.
  reflexivity.
Qed.

Lemma process_file_extends env files chat_history mood length w :
  exists appended,
    snd (fst (process_file env files chat_history mood length w))
    = chat_history ++ appended.
Proof.
  destruct (process_loop_appends env mood length files chat_history w)
    as (appended & E & _).
  exists appended; unfold process_file.
  destruct (process_loop env files chat_history mood length w)
    as [[[u|e] h1] w1]; exact E.
Qed.

Lemma handle_extends env (a : action) (state : list turn) (w : world) :
  a <> Clear ->
  exists appended, fst (handle env a state w) = state ++ appended.
Proof.
  intros N; destruct a as [message mood length|files mood length| | |];
    [ | | congruence | | ]; unfold handle.
  - destruct (respond_appends env message state mood length w) as [t E].
    destruct (respond env message state mood length w) as [[r h1] w1].
    exists [t]; exact E.
  - destruct (process_file_extends env files state mood length w) as [appended E].
    destruct (process_file env files state mood length w) as [[r h1] w1].
    exists appended; exact E.
  - exists []; simpl; now rewrite app_nil_r.
  - pose proof (summarize_chat_keeps env state w) as E.
    destruct (summarize_chat env state w) as [[r h1] w1].
    exists []; simpl in *; now rewrite app_nil_r.
Qed.

(** C5.  Whatever the action, the conversation afterwards is either the
    conversation before with turns appended at its end (send, upload,
    export and summarization: every turn that was there is still there,
    at its place and unchanged), or the empty conversation (clear). *)
Theorem conversation_grows_or_resets env (a : action) (state : list turn)
        (w : world) :
  let state' := fst (handle env a state w) in
  (a = Clear -> state' = [])
  /\ (a <> Clear -> exists appended, state' = state ++ appended)
  /\ (a <> Clear ->
      forall i t, nth_error state i = Some t -> nth_error state' i = Some t).
Proof.
  intros state'; split; [intros ->; reflexivity|].
  split; [apply handle_extends|].
  intros N i t H.
  destruct (handle_extends env a state w N) as [appended E].
  unfold state'; rewrite E, nth_error_app1; [exact H|].
  apply nth_error_Some; congruence.
Qed.

Lemma conversation_grows_or_resets_witness :
  fst (handle Sample.env Clear [("Hello", "Hi")] initial_world) = []
  /\ nth_error (fst (handle Sample.env (Submit "Bye" "Friendly" 2)
                            [("Hello", "Hi")] initial_world)) 0
     = Some ("Hello", "Hi").
Proof.
  split.
  - apply (conversation_grows_or_resets Sample.env Clear); reflexivity.
  - apply (conversation_grows_or_resets Sample.env (Submit "Bye" "Friendly" 2));
      [discriminate | reflexivity].
Defined.

(** ** Export and summarization *)

Lemma zero_padded_length (width n : nat) :
  String.length (zero_padded width n) = width.
Proof.
  revert n; induction width as [|width IH]; intros n; simpl; [reflexivity|].
  rewrite append_length, IH; simpl; lia.
Qed.

Lemma strftime_file_length (d : datetime) :
  String.length (strftime_file d) = 15.
Proof.
  unfold strftime_file; rewrite !append_length, !zero_padded_length; reflexivity.
Qed.

Lemma export_block (user bot : string) :
  "User: " ^^ user ^^ nl ^^ "Bot: " ^^ bot ^^ nl ^^ nl
  = transcript_block (user, bot) ^^ nl ^^ nl.
Proof. unfold transcript_block; rewrite !append_assoc; reflexivity. Qed.

Lemma export_fold (chat_history : list turn) (written : string) :
  fold_left (fun written (t : turn) =>
               let (user, bot) := t in
               written ^^ ("User: " ^^ user ^^ nl ^^ "Bot: " ^^ bot ^^ nl ^^ nl))
            chat_history written
  = written ^^ join EmptyString
                    (map (fun t => transcript_block t ^^ nl ^^ nl) chat_history).
Proof.
  revert written; induction chat_history as [|[user bot] rest IH]; intros written.
  - simpl; now rewrite append_empty_r.
  - cbn [fold_left map]; rewrite IH, join_empty_cons, export_block.
    now rewrite !append_assoc.
Qed.

Lemma export_body_blocks (chat_history : list turn) :
  export_body chat_history
  = join EmptyString (map (fun t => transcript_block t ^^ nl ^^ nl) chat_history).
Proof. unfold export_body; rewrite export_fold; reflexivity. Qed.

Lemma export_body_asText (chat_history : list turn) :
  chat_history <> [] ->
  export_body chat_history = asText chat_history ^^ nl ^^ nl.
Proof.
  rewrite export_body_blocks; unfold asText.
  induction chat_history as [|t rest IH]; intros N; [congruence|].
  cbn [map]; rewrite join_empty_cons.
  destruct rest as [|t' rest].
  - simpl; now rewrite append_empty_r.
  - rewrite IH by discriminate.
    cbn [map join]; now rewrite !append_assoc.
Qed.

(** C7, the claim as written fails: on a conversation of two turns the
    text summarized is not the blocks joined by blank lines, the export
    body is not either, and the two differ from each other. *)
Lemma rendering_not_shared :
  summarize_transcript Sample.two_turns <> asText Sample.two_turns
  /\ export_body Sample.two_turns <> asText Sample.two_turns
  /\ summarize_transcript Sample.two_turns <> export_body Sample.two_turns.
Proof.
  repeat split; apply String.eqb_neq; vm_compute; reflexivity.
Qed.

(** C7, amended.  A turn is rendered as the line "User: <text>" followed
    by the line "Bot: <text>", in conversation order, by both.
    Summarization joins the blocks with a single newline.  Export
    writes a blank line after every block, the last one included: for a
    conversation that is not empty its body is the blocks joined by
    blank lines followed by one more blank line.  The export file is
    named chat_history_<stamp>.txt, the stamp being the 15 characters
    of the clock reading printed as YYYYMMDD_HHMMSS. *)
Theorem export_and_summary_rendering env (chat_history : list turn) (w : world) :
  (forall user bot,
      transcript_block (user, bot) = "User: " ^^ user ^^ nl ^^ "Bot: " ^^ bot)
  /\ summarize_transcript chat_history = join nl (map transcript_block chat_history)
  /\ requests (snd (summarize_chat env chat_history w))
     = requests w
         ++ [[mkMessage "system" (get_system_prompt "Professional" 2);
              mkMessage "user" ("Summarize this conversation:" ^^ nl ^^ nl ^^
                                summarize_transcript chat_history)]]
  /\ export_body chat_history
     = join EmptyString
            (map (fun t => transcript_block t ^^ nl ^^ nl) chat_history)
  /\ (chat_history <> [] ->
      export_body chat_history = asText chat_history ^^ nl ^^ nl)
  /\ (let d := now env (clock_reads w) in
      let stamp :=
        zero_padded 4 (year d) ^^ zero_padded 2 (month d) ^^
        zero_padded 2 (day d) ^^ "_" ^^ zero_padded 2 (hour d) ^^
        zero_padded 2 (minute d) ^^ zero_padded 2 (second d) in
      String.length stamp = 15
      /\ fst (fst (download_chat env chat_history w))
         = Returns ("chat_history_" ^^ stamp ^^ ".txt")
      /\ files_written (snd (download_chat env chat_history w))
         = files_written w
             ++ [("chat_history_" ^^ stamp ^^ ".txt", export_body chat_history)]).
Proof.
  split; [reflexivity|].
  split; [reflexivity|].
  split; [reflexivity|].
  split; [apply export_body_blocks|].
  split; [apply export_body_asText|].
  split; [apply strftime_file_length|].
  split; reflexivity.
Qed.

Lemma export_and_summary_rendering_witness :
  export_body Sample.two_turns = asText Sample.two_turns ^^ nl ^^ nl
  /\ fst (fst (download_chat Sample.env Sample.two_turns initial_world))
     = Returns "chat_history_20240517_090341.txt".
Proof.
  destruct (export_and_summary_rendering Sample.env Sample.two_turns initial_world)
    as (_ & _ & _ & _ & Body & _ & Name & _).
  split; [apply Body; discriminate | exact Name].
Defined.

(** ** Runs on the sample world *)

Example friendly_prompt :
  get_system_prompt "Friendly" 2
  = "You are a helpful and friendly assistant. Give balanced and informative answers.".
Proof. reflexivity. Qed.

Example hello_run :
  fst (respond Sample.env "Hello" [] "Friendly" 2 initial_world)
  = (Returns EmptyString, [("Hello (09:03:41)", "Hi there! (09:03:41)")]).
Proof. reflexivity. Qed.

Example hello_log :
  log_file (snd (respond Sample.env "Hello" [] "Friendly" 2 initial_world))
  = ["[2024-05-17 09:03:41] User: Hello" ^^ nl].
Proof. reflexivity. Qed.

Example endswith_is_case_sensitive :
  endswith "NOTES.TXT" ".txt" = false /\ endswith "notes.txt" ".txt" = true
  /\ endswith "txt" ".txt" = false.
Proof. repeat split. Qed.

Example empty_choices_run :
  fst (query_openai (mkEnvironment (fun _ _ => Returns []) (now Sample.env)
                                   Sample.disk_text Sample.disk_csv Sample.disk_pdf)
                    "Hello" [] "Friendly" 2 initial_world)
  = Returns "OpenAI API Error: list index out of range".
Proof. reflexivity. Qed.

Example two_turns_summary :
  summarize_transcript Sample.two_turns
  = "User: a" ^^ nl ^^ "Bot: b" ^^ nl ^^ "User: c" ^^ nl ^^ "Bot: d".
Proof. reflexivity. Qed.

Example two_turns_export :
  export_body Sample.two_turns
  = "User: a" ^^ nl ^^ "Bot: b" ^^ nl ^^ nl ^^
    "User: c" ^^ nl ^^ "Bot: d" ^^ nl ^^ nl.
Proof. reflexivity. Qed.

(** * Further properties of the callbacks *)

(** ** Sending a message *)

Lemma respond_run env message chat_history mood length w :
  let stamp := strftime_clock (now env (S (clock_reads w))) in
  let line :=
    "[" ^^ strftime_log (now env (clock_reads w)) ^^ "] User: " ^^ message ^^ nl in
  let w_logged :=
    mkWorld (requests w) (S (S (clock_reads w))) (log_file w ++ [line])
            (files_written w) in
  let w_after :=
    mkWorld (requests w ++ [build_messages message chat_history mood length])
            (S (S (clock_reads w))) (log_file w ++ [line]) (files_written w) in
  exists bot_reply,
    fst (query_openai env message chat_history mood length w_logged)
    = Returns bot_reply
    /\ respond env message chat_history mood length w
       = (Returns EmptyString,
          chat_history ++ [(message ^^ " (" ^^ stamp ^^ ")",
                            bot_reply ^^ " (" ^^ stamp ^^ ")")],
          w_after).
Proof.
  intros stamp line w_logged w_after.
  destruct (query_openai_returns env message chat_history mood length w_logged)
    as [bot_reply Q].
  exists bot_reply; split; [now rewrite Q|].
  cbv beta iota zeta delta [respond read_clock log_user_query].
  cbn [requests clock_reads log_file files_written].
  fold line; fold w_logged; rewrite Q; reflexivity.
Qed.



(** X3.  An answer of the provider without any choice does not make
    [query_openai] raise: the [IndexError] of [choices[0]] is caught
    and its text is returned behind the error prefix. *)
Theorem query_openai_empty_choices env (message : string)
        (chat_history : list turn) (mood : string) (length : Z) (w : world) :
  completions_create env (List.length (requests w))
                     (build_messages message chat_history mood length)
  = Returns [] ->
  fst (query_openai env message chat_history mood length w)
  = Returns "OpenAI API Error: list index out of range".
Proof. intros H; unfold query_openai; cbn [fst]; rewrite H; reflexivity. Qed.

Lemma query_openai_empty_choices_witness :
  fst (query_openai Sample2.env "Hello" [] "Friendly" 2 (mkWorld [[]] 0 [] []))
  = Returns "OpenAI API Error: list index out of range".
Proof.
  apply (query_openai_empty_choices Sample2.env "Hello" [] "Friendly" 2
                                    (mkWorld [[]] 0 [] [])).
  reflexivity.
Defined.

(** ** The file name test *)

Lemma substring_whole (s : string) : substring 0 (String.length s) s = s.
Proof. induction s as [|c s IH]; simpl; [reflexivity | now rewrite IH]. Qed.

Lemma substring_after (p s : string) :
  substring (String.length p) (String.length s) (p ^^ s) = s.
Proof. induction p as [|c p IH]; simpl; [apply substring_whole | exact IH]. Qed.

Lemma slice_then_rest (k : nat) (s : string) :
  k <= String.length s ->
  s = slice_to k s ^^ substring k (String.length s - k) s.
Proof.
  revert s; induction k as [|k IH]; intros s H.
  - rewrite Nat.sub_0_r, substring_whole; destruct s; reflexivity.
  - destruct s as [|c s]; simpl in H; [lia|].
    simpl; rewrite <- IH by lia; reflexivity.
Qed.

(** [endswith] holds exactly of the strings that are some prefix
    followed by the suffix. *)
Lemma endswith_iff (s suffix : string) :
  endswith s suffix = true <-> exists prefix, s = prefix ^^ suffix.
Proof.
  unfold endswith; split.
  - intros H; apply andb_prop in H as [L E].
    apply Nat.leb_le in L; apply String.eqb_eq in E.
    exists (slice_to (String.length s - String.length suffix) s).
    assert (Sp := slice_then_rest (String.length s - String.length suffix) s).
    replace (String.length s - (String.length s - String.length suffix))
      with (String.length suffix) in Sp by lia.
    rewrite E in Sp; apply Sp; lia.
  - intros [prefix ->]; rewrite append_length.
    apply andb_true_intro; split; [apply Nat.leb_le; lia|].
    replace (String.length prefix + String.length suffix - String.length suffix)
      with (String.length prefix) by lia.
    rewrite substring_after; apply String.eqb_refl.
Qed.

Lemma file_prompt_none env file :
  file_prompt env file = Returns None -> supported file = false.
Proof.
  unfold file_prompt, supported.
  destruct (endswith (name file) ".txt").
  { destruct (open_read env (name file)); discriminate. }
  destruct (endswith (name file) ".csv").
  { destruct (read_csv env (name file)) as [df|e]; [|discriminate].
    simpl; destruct (csv_prompt df); discriminate. }
  destruct (endswith (name file) ".pdf"); [|reflexivity].
  destruct (fitz_open env (name file)) as [doc|e]; [|discriminate].
  simpl; destruct (pdf_pages doc EmptyString); discriminate.
Qed.

Lemma file_prompt_some env file prompt :
  file_prompt env file = Returns (Some prompt) -> supported file = true.
Proof.
  unfold supported; intros H.
  destruct (endswith (name file) ".txt") eqn:T; [reflexivity|].
  destruct (endswith (name file) ".csv") eqn:C; [reflexivity|].
  destruct (endswith (name file) ".pdf") eqn:P; [reflexivity|].
  rewrite (file_prompt_unsupported env file T C P) in H; discriminate.
Qed.

(** X4.  The upload handler treats a file as unsupported exactly when
    its name is not some prefix followed by ".txt", ".csv" or ".pdf":
    no reading is attempted for such a name, and every other name is
    read (and then gives a prompt or an exception). *)
Theorem file_prompt_rejects_exactly env (file : upload) :
  file_prompt env file = Returns None
  <-> (forall prefix,
          name file <> prefix ^^ ".txt" /\ name file <> prefix ^^ ".csv"
          /\ name file <> prefix ^^ ".pdf").
Proof.
  split.
  - intros H; apply file_prompt_none in H; unfold supported in H.
    apply orb_false_elim in H as [H P]; apply orb_false_elim in H as [T C].
    intros prefix; repeat split; intros E.
    + assert (X : endswith (name file) ".txt" = true)
        by (apply endswith_iff; eauto); congruence.
    + assert (X : endswith (name file) ".csv" = true)
        by (apply endswith_iff; eauto); congruence.
    + assert (X : endswith (name file) ".pdf" = true)
        by (apply endswith_iff; eauto); congruence.
  - intros H; apply file_prompt_unsupported.
    + destruct (endswith (name file) ".txt") eqn:X; [|reflexivity].
      apply endswith_iff in X as [prefix X]; destruct (H prefix) as (N & _ & _).
      contradiction.
    + destruct (endswith (name file) ".csv") eqn:X; [|reflexivity].
      apply endswith_iff in X as [prefix X]; destruct (H prefix) as (_ & N & _).
      contradiction.
    + destruct (endswith (name file) ".pdf") eqn:X; [|reflexivity].
      apply endswith_iff in X as [prefix X]; destruct (H prefix) as (_ & _ & N).
      contradiction.
Qed.

Lemma file_prompt_rejects_exactly_witness :
  file_prompt Sample.env (mkUpload "notes.txt.bak") = Returns None
  /\ "notes.txt.bak" <> "notes.txt" ^^ ".txt".
Proof.
  split; [reflexivity|].
  apply (proj1 (file_prompt_rejects_exactly Sample.env (mkUpload "notes.txt.bak"))
               eq_refl "notes.txt").
Defined.

(** ** What a batch does to the conversation and the world *)

Section Batch.

Variable env : environment.
Variables (mood : string) (length : Z).

(** The loop appends turns and requests and touches nothing else; it
    appends one turn per file and one request per supported file when
    it runs to its end, fewer turns than files when an exception ends
    it. *)
Lemma process_loop_effects (files : list upload) (chat_history : list turn)
      (w : world) :
  exists appended sent,
    snd (fst (process_loop env files chat_history mood length w))
    = chat_history ++ appended
    /\ snd (process_loop env files chat_history mood length w)
       = mkWorld (requests w ++ sent) (clock_reads w) (log_file w)
                 (files_written w)
    /\ List.length sent <= List.length (filter supported files)
    /\ match fst (fst (process_loop env files chat_history mood length w)) with
       | Returns _ =>
           List.length appended = List.length files
           /\ List.length sent = List.length (filter supported files)
       | Raises _ => List.length appended < List.length files
       end.
Proof.
  revert chat_history w; induction files as [|file files IH]; intros chat_history w.
  - exists [], []; cbn; rewrite !app_nil_r; destruct w; repeat split; lia.
  - cbn [process_loop filter].
    destruct (file_prompt env file) as [[prompt|]|e] eqn:F.
    + rewrite (file_prompt_some env file prompt F).
      destruct (query_openai_returns env prompt chat_history mood length w)
        as [response ->].
      match goal with
      | |- context [process_loop env files ?h mood length ?w1] =>
          destruct (IH h w1) as (appended & sent & E & W & L & R)
      end.
      exists (uploaded_turn file response :: appended),
             (build_messages prompt chat_history mood length :: sent).
      rewrite E, W; cbn [requests clock_reads log_file files_written].
      rewrite <- !app_assoc; cbn [app List.length].
      repeat split; [lia|].
      destruct (fst (fst (process_loop env files _ mood length _))); lia.
    + rewrite (file_prompt_none env file F).
      destruct (IH (chat_history ++ [unsupported_turn file]) w)
        as (appended & sent & E & W & L & R).
      exists (unsupported_turn file :: appended), sent.
      rewrite E, W, <- app_assoc; cbn [app List.length].
      repeat split; [exact L|].
      destruct (fst (fst (process_loop env files _ mood length _))); lia.
    + exists [], []; cbn; rewrite !app_nil_r; destruct w; repeat split; lia.
Qed.

End Batch.

(** X5.  Whatever happens in a batch, the upload handler leaves the
    clock, the log and the exported files alone, keeps the requests
    sent before and sends at most one request per supported file. *)
Theorem process_file_effects env (files : list upload) (chat_history : list turn)
        (mood : string) (length : Z) (w : world) :
  let w' := snd (process_file env files chat_history mood length w) in
  clock_reads w' = clock_reads w
  /\ log_file w' = log_file w
  /\ files_written w' = files_written w
  /\ exists sent,
      requests w' = requests w ++ sent
      /\ List.length sent <= List.length (filter supported files).
Proof.
  intros w'.
  destruct (process_loop_effects env mood length files chat_history w)
    as (appended & sent & _ & W & L & _).
  assert (E : w' = mkWorld (requests w ++ sent) (clock_reads w) (log_file w)
                           (files_written w)).
  { unfold w', process_file.
    destruct (process_loop env files chat_history mood length w)
      as [[[u|e] h1] w1]; exact W. }
  rewrite E; cbn; repeat split; eauto.
Qed.

(** X6.  The upload handler never raises.  Its reply is empty exactly
    when every file of the batch was processed, and then one turn per
    file was appended and one request per supported file was sent;
    otherwise the reply is "Error reading file(s): " followed by the
    exception text and fewer turns than files were appended. *)
Theorem process_file_reply env (files : list upload) (chat_history : list turn)
        (mood : string) (length : Z) (w : world) :
  exists reply appended,
    fst (process_file env files chat_history mood length w)
    = (Returns reply, chat_history ++ appended)
    /\ ((reply = EmptyString
         /\ List.length appended = List.length files
         /\ List.length (requests (snd (process_file env files chat_history
                                                     mood length w)))
            = List.length (requests w) + List.length (filter supported files))
        \/ (reply <> EmptyString
            /\ (exists e, reply = "Error reading file(s): " ^^ e)
            /\ List.length appended < List.length files)).
Proof.
  destruct (process_loop_effects env mood length files chat_history w)
    as (appended & sent & E & W & _ & R).
  unfold process_file.
  destruct (process_loop env files chat_history mood length w)
    as [[[u|e] h1] w1]; cbn [fst snd] in *; subst h1 w1.
  - exists EmptyString, appended; split; [reflexivity|].
    left; destruct R as [R1 R2]; cbn [requests].
    rewrite length_app; repeat split; [exact R1 | lia].
  - exists ("Error reading file(s): " ^^ e), appended; split; [reflexivity|].
    right; repeat split; [discriminate | eauto | exact R].
Qed.

(** ** The size of an excerpt *)

(** The page loop never hands back more than the cap. *)
Lemma pdf_pages_bounded (doc : document) (text result : string) :
  String.length text <= LIMIT ->
  pdf_pages doc text = Returns result ->
  String.length result <= LIMIT.
Proof.
  revert text; induction doc as [|page doc IH]; intros text H R.
  - cbn [pdf_pages] in R; injection R as <-; exact H.
  - cbn [pdf_pages] in R; destruct page as [page_text|e]; [|discriminate].
    cbn [bind] in R; revert R.
    destruct (Nat.ltb_spec LIMIT (String.length (text ^^ page_text))) as [O|U];
      intros R.
    + assert (E : result = slice_to LIMIT (text ^^ page_text)) by congruence.
      rewrite E, slice_to_length; lia.
    + exact (IH _ U R).
Qed.

(** X7.  The prompt built for a text file has at most 3054 characters
    and the prompt built for a PDF file at most 3063, whatever the size
    of the file: the excerpt is capped at 3000 characters and the rest
    is the fixed instruction and note. *)
Theorem excerpt_prompt_bounded env (file : upload) (prompt : string) :
  file_prompt env file = Returns (Some prompt) ->
  (endswith (name file) ".txt" = true -> String.length prompt <= 3054)
  /\ (endswith (name file) ".pdf" = true -> String.length prompt <= 3063).
Proof.
  intros F; split; intros S.
  - rewrite (file_prompt_txt env file S) in F.
    destruct (open_read env (name file)) as [content|e]; [|discriminate].
    cbn [bind] in F.
    assert (E : prompt = txt_prompt content) by congruence.
    rewrite E; unfold txt_prompt, txt_note.
    assert (B := slice_to_length LIMIT content).
    destruct (LIMIT <? String.length content)%nat;
      rewrite !append_length, B; unfold LIMIT; cbn [String.length nl]; lia.
  - rewrite (file_prompt_pdf env file S) in F.
    destruct (fitz_open env (name file)) as [doc|e]; [|discriminate].
    cbn [bind] in F.
    destruct (pdf_pages doc EmptyString) as [text|e] eqn:P; [|discriminate].
    cbn [bind] in F.
    assert (E : prompt = pdf_prompt text) by congruence.
    assert (B : String.length text <= LIMIT).
    { apply (pdf_pages_bounded doc EmptyString text); [simpl; lia | exact P]. }
    rewrite E; unfold pdf_prompt; rewrite !append_length.
    unfold LIMIT in B; cbn [String.length nl]; lia.
Qed.

Lemma excerpt_prompt_bounded_witness :
  String.length (txt_prompt Sample.long_text) <= 3054
  /\ String.length (pdf_prompt (slice_to 3000 Sample.long_text)) <= 3063.
Proof.
  split.
  - apply (excerpt_prompt_bounded Sample.env (mkUpload "long.txt")
                                  (txt_prompt Sample.long_text) eq_refl);
      reflexivity.
  - apply (excerpt_prompt_bounded Sample.env (mkUpload "paper.pdf")
             (pdf_prompt (slice_to 3000 Sample.long_text)));
      vm_compute; reflexivity.
Defined.

Lemma pdf_pages_raises (read : list string) (e : string) (rest : document)
      (text : string) :
  String.length (text ^^ join EmptyString read) <= LIMIT ->
  pdf_pages (map Returns read ++ Raises e :: rest) text = Raises e.
Proof.
  revert text; induction read as [|p read IH]; intros text Hle.
  - reflexivity.
  - rewrite join_empty_cons in *; rewrite <- append_assoc in *.
    simpl map; simpl app; simpl pdf_pages.
    destruct (Nat.ltb_spec LIMIT (String.length (text ^^ p))) as [Over|Under].
    + rewrite append_length in Hle; lia.
    + apply IH; assumption.
Qed.

(** X8.  A page of a PDF that cannot be read while the text gathered
    so far is within the cap makes the whole file fail with the page's
    exception, whatever pages follow; together with C8, a damaged page
    only goes unnoticed when it lies after the cap was exceeded. *)
Theorem pdf_damaged_page_fails env (file : upload) (read : list string)
        (e : string) (rest : document) :
  endswith (name file) ".pdf" = true ->
  fitz_open env (name file) = Returns (map Returns read ++ Raises e :: rest) ->
  String.length (join EmptyString read) <= 3000 ->
  file_prompt env file = Raises e.
Proof.
  intros P O U; rewrite (file_prompt_pdf env file P), O; simpl bind.
  rewrite (pdf_pages_raises read e rest EmptyString); [reflexivity | exact U].
Qed.

Lemma pdf_damaged_page_fails_witness :
  file_prompt Sample2.env (mkUpload "torn.pdf") = Raises "page 2 is damaged".
Proof.
  apply (pdf_damaged_page_fails Sample2.env (mkUpload "torn.pdf")
           [Sample.short_text] "page 2 is damaged" [Returns Sample.long_text]);
    [reflexivity | reflexivity |].
  apply Nat.leb_le; vm_compute; reflexivity.
Defined.

(** ** The file preview *)

Section PreviewFacts.

Variable env : environment.
Variable df_head3 : dataframe -> string.
Variable no_page : string.

Let entry := preview_entry env df_head3 no_page.
Let separator := nl ^^ "---" ^^ nl.

Lemma preview_entry_txt file :
  endswith (name file) ".txt" = true ->
  entry file
  = (content <- open_read env (name file) ;; Returns (slice_to PREVIEW content)).
Proof. unfold entry, preview_entry; intros ->; reflexivity. Qed.

Lemma preview_entry_pdf file :
  endswith (name file) ".pdf" = true ->
  entry file
  = (doc <- fitz_open env (name file) ;;
     text <- first_page_text no_page doc ;;
     Returns (slice_to PREVIEW text)).
Proof.
  intros H; unfold entry, preview_entry.
  destruct (endswith (name file) ".txt") eqn:T.
  { discriminate (endswith_same_length _ ".txt" ".pdf" eq_refl T H). }
  destruct (endswith (name file) ".csv") eqn:C.
  { discriminate (endswith_same_length _ ".csv" ".pdf" eq_refl C H). }
  rewrite H; reflexivity.
Qed.

Lemma preview_loop_app (pre more : list upload) (parts previews : list string) :
  Forall2 (fun file p => entry file = Returns p) pre parts ->
  preview_loop env df_head3 no_page (pre ++ more) previews
  = preview_loop env df_head3 no_page more (previews ++ parts).
Proof.
  intros F; revert previews; induction F as [|file p pre parts E F IH];
    intros previews.
  - now rewrite app_nil_r.
  - cbn [app preview_loop]; fold (entry file); rewrite E, IH, <- app_assoc.
    reflexivity.
Qed.

Lemma slice_to_slice_to (n m : nat) (s : string) :
  n <= m -> slice_to n (slice_to m s) = slice_to n s.
Proof.
  revert m s; induction n as [|n IH]; intros [|m] [|c s] H; simpl;
    try reflexivity; try lia.
  rewrite IH by lia; reflexivity.
Qed.

End PreviewFacts.

(** X9.  When every file of a batch can be previewed, the preview is
    the files' previews, one per file and in the order of the batch,
    joined by lines of three dashes. *)
Theorem preview_file_complete env df_head3 no_page (files : list upload)
        (parts : list string) :
  Forall2 (fun file p => preview_entry env df_head3 no_page file = Returns p)
          files parts ->
  preview_file env df_head3 no_page files = join (nl ^^ "---" ^^ nl) parts
  /\ List.length parts = List.length files.
Proof.
  intros F; split.
  - unfold preview_file.
    rewrite <- (app_nil_r files), (preview_loop_app _ _ _ _ _ _ [] F).
    reflexivity.
  - symmetry; exact (Forall2_length F).
Qed.

Lemma preview_file_complete_witness :
  preview_file Sample2.env Sample2.head3 "page 0 not in document"
               [mkUpload "data.csv"; mkUpload "report.docx"]
  = "1 ann" ^^ nl ^^ "---" ^^ nl ^^ "Unsupported file.".
Proof.
  apply (preview_file_complete Sample2.env Sample2.head3 "page 0 not in document"
           [mkUpload "data.csv"; mkUpload "report.docx"]
           ["1 ann"; "Unsupported file."]).
  repeat constructor.
Defined.

(** X10.  When a file of the batch cannot be previewed, the preview
    keeps what the files before it gave, ends with "Error: " followed
    by the exception text, and shows nothing of the files after it. *)
Theorem preview_file_cut env df_head3 no_page (pre : list upload)
        (file : upload) (rest : list upload) (parts : list string) (e : string) :
  Forall2 (fun file p => preview_entry env df_head3 no_page file = Returns p)
          pre parts ->
  preview_entry env df_head3 no_page file = Raises e ->
  preview_file env df_head3 no_page (pre ++ file :: rest)
  = join (nl ^^ "---" ^^ nl) (parts ++ ["Error: " ^^ e]).
Proof.
  intros F E; unfold preview_file.
  rewrite (preview_loop_app _ _ _ _ _ _ [] F).
  cbn [preview_loop app]; rewrite E; reflexivity.
Qed.

Lemma preview_file_cut_witness :
  preview_file Sample2.env Sample2.head3 "page 0 not in document"
               [mkUpload "data.csv"; mkUpload "empty.pdf"; mkUpload "short.txt"]
  = "1 ann" ^^ nl ^^ "---" ^^ nl ^^ "Error: page 0 not in document".
Proof.
  apply (preview_file_cut Sample2.env Sample2.head3 "page 0 not in document"
           [mkUpload "data.csv"] (mkUpload "empty.pdf") [mkUpload "short.txt"]
           ["1 ann"] "page 0 not in document").
  - repeat constructor.
  - reflexivity.
Defined.

(** X11.  The preview of a text file or of a PDF file has at most 500
    characters. *)
Theorem preview_bounded env df_head3 no_page (file : upload) (p : string) :
  endswith (name file) ".txt" = true \/ endswith (name file) ".pdf" = true ->
  preview_entry env df_head3 no_page file = Returns p ->
  String.length p <= 500.
Proof.
  intros [S|S] E.
  - rewrite (preview_entry_txt env df_head3 no_page file S) in E.
    destruct (open_read env (name file)) as [content|e]; [|discriminate].
    cbn [bind] in E.
    assert (X : p = slice_to PREVIEW content) by congruence.
    rewrite X, slice_to_length; unfold PREVIEW; lia.
  - rewrite (preview_entry_pdf env df_head3 no_page file S) in E.
    destruct (fitz_open env (name file)) as [doc|e]; [|discriminate].
    cbn [bind] in E.
    destruct (first_page_text no_page doc) as [text|e]; [|discriminate].
    cbn [bind] in E.
    assert (X : p = slice_to PREVIEW text) by congruence.
    rewrite X, slice_to_length; unfold PREVIEW; lia.
Qed.

Lemma preview_bounded_witness :
  String.length (slice_to 500 Sample.long_text) <= 500.
Proof.
  apply (preview_bounded Sample2.env Sample2.head3 "page 0 not in document"
           (mkUpload "long.txt") (slice_to 500 Sample.long_text));
    [left; reflexivity | reflexivity].
Defined.

(** X12.  For a text file that can be read, the preview is the first
    500 characters of the excerpt that the upload handler puts in its
    prompt. *)
Theorem preview_is_head_of_excerpt env df_head3 no_page (file : upload)
        (content : string) :
  endswith (name file) ".txt" = true ->
  open_read env (name file) = Returns content ->
  file_prompt env file
  = Returns (Some ("Analyze this text file:" ^^ nl ^^ nl ^^
                   slice_to 3000 content ^^ txt_note content))
  /\ preview_entry env df_head3 no_page file
     = Returns (slice_to 500 (slice_to 3000 content)).
Proof.
  intros S R; split.
  - rewrite (file_prompt_txt env file S), R; reflexivity.
  - rewrite (preview_entry_txt env df_head3 no_page file S), R; cbn [bind].
    rewrite slice_to_slice_to; [reflexivity | lia].
Qed.

Lemma preview_is_head_of_excerpt_witness :
  preview_entry Sample2.env Sample2.head3 "page 0 not in document"
                (mkUpload "long.txt")
  = Returns (slice_to 500 (slice_to 3000 Sample.long_text)).
Proof.
  apply (preview_is_head_of_excerpt Sample2.env Sample2.head3
           "page 0 not in document" (mkUpload "long.txt") Sample.long_text);
    reflexivity.
Defined.

(** X13.  A PDF without pages is handled differently by the two
    callbacks of an upload: the preview fails on [doc[0]] and shows the
    error, while the upload handler finds no page to read and sends a
    prompt with an empty excerpt, still marked as truncated. *)
Theorem empty_pdf_preview_and_prompt env df_head3 no_page (file : upload) :
  endswith (name file) ".pdf" = true ->
  fitz_open env (name file) = Returns [] ->
  preview_entry env df_head3 no_page file = Raises no_page
  /\ file_prompt env file
     = Returns (Some ("Analyze this PDF content:" ^^ nl ^^ nl ^^ nl ^^ nl ^^
                      "[Note: PDF content was truncated.]")).
Proof.
  intros S O; split.
  - rewrite (preview_entry_pdf env df_head3 no_page file S), O; reflexivity.
  - rewrite (file_prompt_pdf env file S), O; reflexivity.
Qed.

Lemma empty_pdf_preview_and_prompt_witness :
  preview_entry Sample2.env Sample2.head3 "page 0 not in document"
                (mkUpload "empty.pdf")
  = Raises "page 0 not in document"
  /\ file_prompt Sample2.env (mkUpload "empty.pdf")
     = Returns (Some ("Analyze this PDF content:" ^^ nl ^^ nl ^^ nl ^^ nl ^^
                      "[Note: PDF content was truncated.]")).
Proof.
  apply (empty_pdf_preview_and_prompt Sample2.env Sample2.head3
           "page 0 not in document" (mkUpload "empty.pdf")); reflexivity.
Defined.

(** ** The export body *)

Lemma join_empty_app (a b : list string) :
  join EmptyString (a ++ b) = join EmptyString a ^^ join EmptyString b.
Proof.
  induction a as [|p a IH]; [reflexivity|].
  cbn [app]; rewrite !join_empty_cons, IH, append_assoc; reflexivity.
Qed.

(** X14.  The export body of a conversation followed by further turns
    is the export body of the conversation followed by the export body
    of the further turns: what is exported later extends what was
    exported before. *)
Theorem export_body_app (earlier later : list turn) :
  export_body (earlier ++ later) = export_body earlier ^^ export_body later.
Proof. rewrite !export_body_blocks, map_app; apply join_empty_app. Qed.

(** X15.  The export does not keep turns apart: a turn whose user text
    itself holds a "Bot: " line, a blank line and a "User: " line is
    exported exactly as two turns are, so the conversation cannot be
    read back from the file. *)
Theorem export_body_ambiguous (user bot user' bot' : string) (rest : list turn) :
  export_body ((user ^^ nl ^^ "Bot: " ^^ bot ^^ nl ^^ nl ^^ "User: " ^^ user', bot')
                 :: rest)
  = export_body ((user, bot) :: (user', bot') :: rest).
Proof.
  rewrite !export_body_blocks; cbn [map]; rewrite !join_empty_cons.
  unfold transcript_block; rewrite !append_assoc; reflexivity.
Qed.

(** ** The name of the export file *)

Lemma append_inj (a a' b b' : string) :
  String.length a = String.length a' ->
  a ^^ b = a' ^^ b' -> a = a' /\ b = b'.
Proof.
  revert a'; induction a as [|c a IH]; intros [|c' a'] L E;
    simpl in L; try discriminate.
  - split; [reflexivity | exact E].
  - simpl in E; injection E as -> E.
    destruct (IH a' ltac:(lia) E) as [-> ->]; split; reflexivity.
Qed.

Lemma digit_inj (n m : nat) : digit n = digit m -> n mod 10 = m mod 10.
Proof.
  unfold digit.
  pose proof (Nat.mod_upper_bound n 10 ltac:(lia)) as Hn.
  pose proof (Nat.mod_upper_bound m 10 ltac:(lia)) as Hm.
  revert Hn Hm; generalize (n mod 10) (m mod 10); intros a b Ha Hb E.
  assert (E' : ascii_of_nat (48 + a) = ascii_of_nat (48 + b)) by congruence.
  apply (f_equal nat_of_ascii) in E'.
  rewrite !nat_ascii_embedding in E' by lia; lia.
Qed.

(** Numbers that fit the width are printed differently. *)
Lemma zero_padded_inj (width n m : nat) :
  n < 10 ^ width -> m < 10 ^ width ->
  zero_padded width n = zero_padded width m -> n = m.
Proof.
  revert n m; induction width as [|width IH]; intros n m Hn Hm E.
  - simpl in Hn, Hm; lia.
  - cbn [zero_padded] in E.
    apply append_inj in E; [|now rewrite !zero_padded_length].
    destruct E as [E D]; apply digit_inj in D.
    rewrite Nat.pow_succ_r' in Hn, Hm.
    assert (Q : n / 10 = m / 10).
    { apply IH; [apply Nat.Div0.div_lt_upper_bound | 
                 apply Nat.Div0.div_lt_upper_bound | ]; assumption. }
    rewrite (Nat.div_mod_eq n 10), (Nat.div_mod_eq m 10), Q, D; reflexivity.
Qed.

Lemma strftime_file_inj (d d' : datetime) :
  printable d -> printable d' ->
  strftime_file d = strftime_file d' -> d = d'.
Proof.
  intros (Y & Mo & D & H & Mi & S) (Y' & Mo' & D' & H' & Mi' & S') E.
  unfold strftime_file in E.
  apply append_inj in E as [Ey E]; [|now rewrite !zero_padded_length].
  apply append_inj in E as [Emo E]; [|now rewrite !zero_padded_length].
  apply append_inj in E as [Ed E]; [|now rewrite !zero_padded_length].
  apply append_inj in E as [_ E]; [|reflexivity].
  apply append_inj in E as [Eh E]; [|now rewrite !zero_padded_length].
  apply append_inj in E as [Emi Es]; [|now rewrite !zero_padded_length].
  apply (zero_padded_inj 4) in Ey; [|exact Y|exact Y'].
  apply (zero_padded_inj 2) in Emo; [|exact Mo|exact Mo'].
  apply (zero_padded_inj 2) in Ed; [|exact D|exact D'].
  apply (zero_padded_inj 2) in Eh; [|exact H|exact H'].
  apply (zero_padded_inj 2) in Emi; [|exact Mi|exact Mi'].
  apply (zero_padded_inj 2) in Es; [|exact S|exact S'].
  destruct d, d'; simpl in *; congruence.
Qed.

(** X16.  Two exports get the same file name exactly when the clock
    shows the same second for both: exports at different seconds never
    share a file, and a second export within the same second is written
    under the name of the first. *)
Theorem export_name_collides_iff env (chat_history chat_history' : list turn)
        (w w' : world) :
  printable (now env (clock_reads w)) ->
  printable (now env (clock_reads w')) ->
  fst (fst (download_chat env chat_history w))
  = fst (fst (download_chat env chat_history' w'))
  <-> now env (clock_reads w) = now env (clock_reads w').
Proof.
  intros P P'; unfold download_chat, read_clock; cbn [fst]; split.
  - intros E; apply strftime_file_inj; [exact P | exact P' |].
    assert (N : "chat_history_" ^^ strftime_file (now env (clock_reads w)) ^^ ".txt"
                = "chat_history_" ^^ strftime_file (now env (clock_reads w'))
                    ^^ ".txt") by congruence.
    apply append_inj in N as [_ N]; [|reflexivity].
    apply append_inj in N as [N _]; [exact N|].
    now rewrite !strftime_file_length.
  - intros ->; reflexivity.
Qed.

Lemma export_name_collides_iff_witness :
  fst (fst (download_chat Sample2.env [] initial_world))
  <> fst (fst (download_chat Sample2.env [] (mkWorld [] 1 [] []))).
Proof.
  intros E.
  apply (export_name_collides_iff Sample2.env [] [] initial_world
                                  (mkWorld [] 1 [] [])) in E.
  - discriminate E.
  - unfold printable; cbn; lia.
  - unfold printable; cbn; lia.
Defined.

(** ** The persona *)

(** X17.  Over the moods of the dropdown and the levels of the slider
    the system prompt tells the persona: two different choices never
    give the same prompt. *)
Theorem get_system_prompt_inj (mood mood' : string) (length length' : Z) :
  In mood ["Friendly"; "Professional"; "Humorous"] ->
  In mood' ["Friendly"; "Professional"; "Humorous"] ->
  In length [1%Z; 2%Z; 3%Z] ->
  In length' [1%Z; 2%Z; 3%Z] ->
  get_system_prompt mood length = get_system_prompt mood' length' ->
  mood = mood' /\ length = length'.
Proof.
  intros M M' L L' E.
  assert (T : tone mood = tone mood' /\ detail length = detail length').
  { unfold get_system_prompt in E.
    assert (Len : String.length (tone mood) = String.length (tone mood')
                  \/ String.length (tone mood) <> String.length (tone mood'))
      by lia.
    destruct Len as [Len|Len].
    - apply append_inj in E as [Et E]; [|exact Len].
      apply append_inj in E as [_ Ed]; [|reflexivity].
      split; assumption.
    - exfalso; revert E.
      cbn [In] in M, M', L, L'.
      destruct M as [<-|[<-|[<-|[]]]]; destruct M' as [<-|[<-|[<-|[]]]];
        try (exfalso; apply Len; reflexivity);
        destruct L as [<-|[<-|[<-|[]]]]; destruct L' as [<-|[<-|[<-|[]]]];
        intros E; apply String.eqb_eq in E; vm_compute in E; discriminate E. }
  destruct T as [T D]; cbn [In] in M, M', L, L'; split.
  - destruct M as [<-|[<-|[<-|[]]]]; destruct M' as [<-|[<-|[<-|[]]]];
      try reflexivity; apply String.eqb_eq in T; vm_compute in T; discriminate T.
  - destruct L as [<-|[<-|[<-|[]]]]; destruct L' as [<-|[<-|[<-|[]]]];
      try reflexivity; apply String.eqb_eq in D; vm_compute in D; discriminate D.
Qed.

Lemma get_system_prompt_inj_witness :
  get_system_prompt "Friendly" 1 <> get_system_prompt "Humorous" 1.
Proof.
  intros E.
  destruct (get_system_prompt_inj "Friendly" "Humorous" 1 1) as [N _];
    cbn [In]; auto.
  discriminate N.
Defined.

(** ** A session *)

Section Session.

Variable env : environment.

Lemma process_file_world files chat_history mood length w :
  exists sent,
    snd (process_file env files chat_history mood length w)
    = mkWorld (requests w ++ sent) (clock_reads w) (log_file w) (files_written w).
Proof.
  destruct (process_loop_effects env mood length files chat_history w)
    as (appended & sent & _ & W & _).
  exists sent; unfold process_file.
  destruct (process_loop env files chat_history mood length w)
    as [[[u|e] h1] w1]; exact W.
Qed.

(** What one callback leaves of the world: everything that was there,
    with one log line more for a message and one file more for an
    export. *)
Lemma handle_world (a : action) (state : list turn) (w : world) :
  exists sent lines written,
    snd (handle env a state w)
    = mkWorld (requests w ++ sent)
              (clock_reads w + 2 * List.length lines + List.length written)
              (log_file w ++ lines) (files_written w ++ written)
    /\ List.length lines = (if is_submit a then 1 else 0)
    /\ List.length written = (if is_download a then 1 else 0).
Proof.
  destruct a as [message mood length|files mood length| | |]; cbn [handle].
  - destruct (respond_run env message state mood length w) as (reply & _ & E).
    rewrite E; cbn [snd].
    eexists [_], [_], []; cbn [List.length is_submit is_download].
    rewrite !app_nil_r; repeat split; f_equal; lia.
  - destruct (process_file_world files state mood length w) as [sent E].
    destruct (process_file env files state mood length w) as [[r h1] w1].
    cbn [snd] in *; subst w1.
    exists sent, [], []; cbn [List.length is_submit is_download].
    rewrite !app_nil_r; repeat split; f_equal; lia.
  - exists [], [], []; cbn; rewrite !app_nil_r; destruct w; cbn.
    repeat split; f_equal; lia.
  - unfold download_chat, read_clock; cbn [snd].
    eexists [], [], [_]; cbn [List.length is_submit is_download
                                requests clock_reads log_file files_written].
    rewrite !app_nil_r; repeat split; f_equal; lia.
  - unfold summarize_chat.
    match goal with
    | |- context [query_openai ?e ?m ?h ?mo ?l ?w1] =>
        destruct (query_openai_returns e m h mo l w1) as [summary ->]
    end.
    cbn [snd]; eexists [_], [], []; cbn [List.length is_submit is_download].
    rewrite !app_nil_r; repeat split; f_equal; lia.
Qed.

Lemma run_app (first later : list action) (state : list turn) (w : world) :
  run env (first ++ later) state w
  = run env later (fst (run env first state w)) (snd (run env first state w)).
Proof.
  revert state w; induction first as [|a first IH]; intros state w.
  - reflexivity.
  - cbn [app run]; destruct (handle env a state w) as [state' w']; apply IH.
Qed.

End Session.




(** ** Summarization and tables *)

(** X21.  [summarize_chat] never raises and is a single request of its
    own: whatever the conversation holds, also nothing, it sends the
    Professional, level 2 system message and one user message with the
    transcript, returns the reply (or the error text) of that request,
    and leaves the conversation, the clock, the log and the files as
    they were. *)
Theorem summarize_chat_spec env (chat_history : list turn) (w : world) :
  let prompt :=
    "Summarize this conversation:" ^^ nl ^^ nl ^^ summarize_transcript chat_history in
  let request :=
    [mkMessage "system"
       "You are a formal and knowledgeable assistant. Give balanced and informative answers.";
     mkMessage "user" prompt] in
  exists summary,
    summarize_chat env chat_history w
    = (Returns summary, chat_history,
       mkWorld (requests w ++ [request]) (clock_reads w) (log_file w)
               (files_written w))
    /\ fst (query_openai env prompt [] "Professional" 2 w) = Returns summary
    /\ (chat_history = [] -> prompt = "Summarize this conversation:" ^^ nl ^^ nl).
Proof.
  intros prompt request.
  destruct (query_openai_returns env prompt [] "Professional" 2 w) as [summary Q].
  exists summary; unfold summarize_chat; fold prompt; rewrite Q.
  repeat split.
  intros ->; reflexivity.
Qed.

Lemma summarize_chat_spec_witness :
  fst (fst (summarize_chat Sample.env [] initial_world)) = Returns "Hi there!".
Proof.
  destruct (summarize_chat_spec Sample.env [] initial_world) as (summary & E & Q & _).
  rewrite E; cbn [fst]; rewrite <- Q; reflexivity.
Defined.

Lemma file_prompt_csv env file :
  endswith (name file) ".csv" = true ->
  file_prompt env file
  = (df <- read_csv env (name file) ;;
     prompt <- csv_prompt df ;;
     Returns (Some prompt)).
Proof.
  intros H; unfold file_prompt.
  destruct (endswith (name file) ".txt") eqn:T.
  { discriminate (endswith_same_length _ ".txt" ".csv" eq_refl T H). }
  rewrite H; reflexivity.
Qed.

(** X22.  The prompt for a table is not capped as the excerpts of text
    and PDF files are: it holds the whole statistics text, the whole
    sample and every column name, so it is at least as long as these
    together.  When the statistics cannot be computed the file fails
    with that exception. *)
Theorem csv_prompt_not_capped env (file : upload) (df : dataframe) :
  endswith (name file) ".csv" = true ->
  read_csv env (name file) = Returns df ->
  (forall e, df_describe df = Raises e -> file_prompt env file = Raises e)
  /\ (forall summary,
         df_describe df = Returns summary ->
         exists prompt,
           file_prompt env file = Returns (Some prompt)
           /\ String.length summary + String.length (df_head5 df)
              + String.length (join ", " (df_columns df))
              <= String.length prompt).
Proof.
  intros C R; rewrite (file_prompt_csv env file C), R; cbn [bind].
  unfold csv_prompt; split.
  - intros e ->; reflexivity.
  - intros summary ->; cbn [bind]; eexists; split; [reflexivity|].
    rewrite !append_length; lia.
Qed.

Lemma csv_prompt_not_capped_witness :
  exists prompt,
    file_prompt Sample2.env (mkUpload "data.csv") = Returns (Some prompt)
    /\ String.length "count 2" + String.length "1 ann" + String.length "id, name"
       <= String.length prompt.
Proof.
  destruct (csv_prompt_not_capped Sample2.env (mkUpload "data.csv") Sample2.table
                                  eq_refl eq_refl) as [_ H].
  apply (H "count 2"); reflexivity.
Defined.
